(** * Provider configuration of [backend/app/settings.py]

    A shallow embedding of [init_settings] and of the five per-provider
    initialisers it dispatches to, over an explicit process environment
    ([os.environ], a finite map from names to values) and an explicit world
    holding what the Python code mutates: the process-wide [Settings] object
    of [llama_index], the lines written by [print], and the bearer-token
    callbacks handed out by [azure.identity].

    Python exceptions are values: a computation returns the world it reached
    together with either its result or the exception that stopped it, so the
    assignments made before a [raise] stay visible, as they do in Python. *)

From Stdlib Require Import ZArith NArith QArith_base Ascii String.
From stdpp Require Import base option strings gmap fin_maps.

Open Scope Z_scope.
Open Scope string_scope.

(** ** The builtin [int] on strings

    [int(s)] in base 10 as CPython reads it: white space (the six
    characters tab, line feed, vertical tab, form feed, carriage return and
    space) is skipped on both sides, one sign is allowed, then come decimal
    digits in which single underscores may separate digits; numerals of
    more than [int_max_str_digits] digits are refused.  Environment values
    are ASCII here, so the other Unicode digits and spaces that CPython also
    accepts are outside the model. *)
Module PyInt.

Definition is_space (c : ascii) : bool :=
  let n := N_of_ascii c in
  ((9 <=? n) && (n <=? 13) || (n =? 32))%N.

Definition digit_value (c : ascii) : option Z :=
  let n := N_of_ascii c in
  if ((48 <=? n) && (n <=? 57))%N then Some (Z.of_N n - 48) else None.

Definition is_underscore (c : ascii) : bool := bool_decide (c = "_"%char).

Fixpoint skip_spaces (s : string) : string :=
  match s with
  | String c r => if is_space c then skip_spaces r else s
  | EmptyString => EmptyString
  end.

(** The scanning loop of [long_from_string_base]: [prev] tells whether the
    character before was an underscore, [acc] is the value read so far and
    [digits] the number of digits seen.  It stops at the first character
    that is neither a digit nor an underscore and returns the rest. *)
Fixpoint scan (s : string) (prev : bool) (acc : Z) (digits : N)
  : option (Z * N * string) :=
  match s with
  | String c r =>
      match digit_value c with
      | Some d => scan r false (10 * acc + d) (N.succ digits)
      | None =>
          if is_underscore c
          then (if prev then None else scan r true acc digits)
          else (if prev then None else Some (acc, digits, s))
      end
  | EmptyString => if prev then None else Some (acc, digits, s)
  end.

Definition int_max_str_digits : N := 4300.

Definition signed (s : string) : Z * string :=
  match s with
  | String "+" r => (1, r)
  | String "-" r => (-1, r)
  | _ => (1, s)
  end.

Definition int (s : string) : option Z :=
  let '(sign, body) := signed (skip_spaces s) in
  match body with
  | String "_" _ => None
  | _ =>
      match scan body false 0 0 with
      | Some (v, digits, rest) =>
          if (digits =? 0)%N then None
          else if (int_max_str_digits <? digits)%N then None
          else match skip_spaces rest with
               | EmptyString => Some (sign * v)
               | String _ _ => None
               end
      | None => None
      end
  end.

End PyInt.

(** ** Exceptions and the world *)

(** What a [ValueError] was raised for: the explicit [raise] of
    [init_settings] carries its message; the builtins [int] and [float]
    carry the literal they refused. *)
Inductive value_error : Type :=
| Message (msg : string)
| IntLiteral (literal : string)
| FloatLiteral (literal : string).

(** The exceptions the module can raise.  The key of a [KeyError] is the
    value looked up, which is [None] when the variable is not set. *)
Inductive exception : Type :=
| ValueError (why : value_error)
| KeyError (key : option string).

Inductive outcome (A : Type) : Type :=
| Return (a : A)
| Raise (e : exception).
Arguments Return {A} a.
Arguments Raise {A} e.

(** The callback returned by [get_bearer_token_provider]: [tp_id] is the
    identity of the callback object, [tp_credential] the identity of the
    [DefaultAzureCredential] it was built from, [tp_scope] the audience. *)
Record token_provider : Type := TokenProvider {
  tp_id : nat;
  tp_credential : nat;
  tp_scope : string
}.

(** [str(v)] for the result of [os.getenv]. *)
Definition str (v : option string) : string := default "None" v.

(** [x or d] on the result of [os.getenv]: [None] and the empty string are
    falsy. *)
Definition or_else (v : option string) (d : string) : string :=
  match v with
  | Some (String c r) => String c r
  | Some EmptyString | None => d
  end.

(** [d[k]] on a [Dict[str, str]] with the result of [os.getenv] as key. *)
Definition subscript (d : gmap string string) (k : option string)
  : exception + string :=
  match k ≫= (d !!.) with
  | Some v => inr v
  | None => inl (KeyError k)
  end.

(** The model maps of [init_anthropic] and [init_gemini]. *)
Module Anthropic.
Definition model_map : gmap string string :=
  <["claude-3-opus" := "claude-3-opus-20240229"]>
  (<["claude-3-sonnet" := "claude-3-sonnet-20240229"]>
  (<["claude-3-haiku" := "claude-3-haiku-20240307"]>
  (<["claude-2.1" := "claude-2.1"]>
  (<["claude-instant-1.2" := "claude-instant-1.2"]> ∅)))).

Definition embed_model_map : gmap string string :=
  <["all-MiniLM-L6-v2" := "sentence-transformers/all-MiniLM-L6-v2"]>
  (<["all-mpnet-base-v2" := "sentence-transformers/all-mpnet-base-v2"]> ∅).
End Anthropic.

Module Gemini.
Definition model_map : gmap string string :=
  <["gemini-1.5-pro-latest" := "models/gemini-1.5-pro-latest"]>
  (<["gemini-pro" := "models/gemini-pro"]>
  (<["gemini-pro-vision" := "models/gemini-pro-vision"]> ∅)).

Definition embed_model_map : gmap string string :=
  <["embedding-001" := "models/embedding-001"]>
  (<["text-embedding-004" := "models/text-embedding-004"]> ∅).
End Gemini.

(** The audience [init_azure_openai] asks its token for. *)
Definition cognitive_services_scope : string :=
  "https://cognitiveservices.azure.com/.default".

Definition default_ollama_base_url : string := "http://127.0.0.1:11434".

(** ** What the module imports

    Python's [float] type, the builtin [float] on strings and the two
    constants imported from [llama_index] are not part of this repository:
    the development is parametric in them.  [float_of_str s] is [None] when
    [float(s)] raises [ValueError]. *)
Class Externals : Type := {
  float : Type;
  float_of_str : string → option float;
  DEFAULT_TEMPERATURE : float;
  DEFAULT_REQUEST_TIMEOUT : float
}.

(** ** The configurator *)
Section Configurator.

Context {ext : Externals}.

(** The SDK clients are opaque handles: a client is the constructor that
    was called together with the keyword arguments it received.  The
    constructors belong to the SDKs, not to this module; what they check or
    do with their arguments is outside the model, and a call to one always
    gives a client. *)
Inductive llm_client : Type :=
| Ollama (base_url : string) (model : option string) (request_timeout : float)
| OpenAI (model : option string) (temperature : float)
         (max_tokens : option Z)
| AzureOpenAI (engine azure_endpoint : option string)
              (azure_ad_token_provider : token_provider)
              (use_azure_ad : bool) (temperature : float)
              (max_tokens : option Z)
| Anthropic (model : string)
| Gemini (model : string).

Inductive embed_client : Type :=
| OllamaEmbedding (base_url : string) (model_name : option string)
| OpenAIEmbedding (model : option string) (dimensions : option Z)
| AzureOpenAIEmbedding (azure_endpoint azure_deployment : option string)
                       (azure_ad_token_provider : token_provider)
                       (use_azure_ad : bool) (dimensions : option Z)
| HuggingFaceEmbedding (model_name : string)
| GeminiEmbedding (model_name : string).

(** The four attributes of [llama_index.core.settings.Settings] that the
    module assigns; [None] is an attribute that holds no value. *)
Record Settings : Type := mkSettings {
  llm : option llm_client;
  embed_model : option embed_client;
  chunk_size : option Z;
  chunk_overlap : option Z
}.

Record World : Type := mkWorld {
  settings : Settings;
  stdout : list string;
  credentials : nat;
  token_providers : list token_provider
}.

Definition M (A : Type) : Type := World → World * outcome A.

#[export] Instance M_ret : MRet M := λ A a w, (w, Return a).
#[export] Instance M_bind : MBind M := λ A B f m w,
  match m w with
  | (w', Return a) => f a w'
  | (w', Raise e) => (w', Raise e)
  end.

Definition raise {A} (e : exception) : M A := λ w, (w, Raise e).

(** An expression that reads no state: it gives a value or raises. *)
Definition lift {A} (r : exception + A) : M A :=
  match r with
  | inl e => raise e
  | inr a => mret a
  end.

Definition modify (f : World → World) : M unit := λ w, (f w, Return tt).

Definition with_settings (f : Settings → Settings) (w : World) : World :=
  mkWorld (f (settings w)) (stdout w) (credentials w) (token_providers w).

(** [Settings.llm = c] and its three siblings. *)
Definition assign_llm (c : llm_client) : World → World :=
  with_settings (λ s,
    mkSettings (Some c) (embed_model s) (chunk_size s) (chunk_overlap s)).

Definition assign_embed_model (c : embed_client) : World → World :=
  with_settings (λ s,
    mkSettings (llm s) (Some c) (chunk_size s) (chunk_overlap s)).

Definition assign_chunk_size (n : Z) : World → World :=
  with_settings (λ s,
    mkSettings (llm s) (embed_model s) (Some n) (chunk_overlap s)).

Definition assign_chunk_overlap (n : Z) : World → World :=
  with_settings (λ s,
    mkSettings (llm s) (embed_model s) (chunk_size s) (Some n)).

(** [print(v)] writes one line. *)
Definition printed (v : option string) (w : World) : World :=
  mkWorld (settings w) (stdout w ++ [str v]) (credentials w)
          (token_providers w).

Definition print (v : option string) : M unit := modify (printed v).

(** [DefaultAzureCredential()] makes a new credential object. *)
Definition DefaultAzureCredential : M nat :=
  λ w, (mkWorld (settings w) (stdout w) (S (credentials w))
                (token_providers w),
        Return (credentials w)).

(** [get_bearer_token_provider(credential, scope)] makes a new callback. *)
Definition get_bearer_token_provider (credential : nat) (scope : string)
  : M token_provider :=
  λ w, let tp := TokenProvider (length (token_providers w)) credential scope in
       (mkWorld (settings w) (stdout w) (credentials w)
                (token_providers w ++ [tp]),
        Return tp).

(** [int(s)] and [float(s)] on a string. *)
Definition int (s : string) : exception + Z :=
  from_option inr (inl (ValueError (IntLiteral s))) (PyInt.int s).

Definition float_str (s : string) : exception + float :=
  from_option inr (inl (ValueError (FloatLiteral s))) (float_of_str s).

(** [int(v) if v is not None else None]. *)
Definition int_if_present (v : option string) : exception + option Z :=
  match v with
  | Some s => match int s with
              | inr n => inr (Some n)
              | inl e => inl e
              end
  | None => inr None
  end.

(** [float(os.getenv(key, d))] with a default [d] that is a float already:
    [float] returns a float unchanged. *)
Definition float_or (v : option string) (d : float) : exception + float :=
  match v with
  | Some s => float_str s
  | None => inr d
  end.

Implicit Type env : gmap string string.

Definition init_ollama env : M unit :=
  let base_url := or_else (env !! "OLLAMA_BASE_URL") default_ollama_base_url in
  request_timeout ←
    lift (float_or (env !! "OLLAMA_REQUEST_TIMEOUT") DEFAULT_REQUEST_TIMEOUT);
  modify (assign_embed_model
            (OllamaEmbedding base_url (env !! "EMBEDDING_MODEL")));;
  modify (assign_llm (Ollama base_url (env !! "MODEL") request_timeout)).

Definition init_openai env : M unit :=
  let max_tokens := env !! "LLM_MAX_TOKENS" in
  let model := env !! "MODEL" in
  temperature ← lift (float_or (env !! "LLM_TEMPERATURE") DEFAULT_TEMPERATURE);
  max_tokens' ← lift (int_if_present max_tokens);
  modify (assign_llm (OpenAI model temperature max_tokens'));;
  let dimensions := env !! "EMBEDDING_DIM" in
  let model := env !! "EMBEDDING_MODEL" in
  dimensions' ← lift (int_if_present dimensions);
  modify (assign_embed_model (OpenAIEmbedding model dimensions')).

Definition init_azure_openai env : M unit :=
  let llm_deployment := env !! "AZURE_DEPLOYMENT_NAME" in
  let embedding_deployment := env !! "EMBEDDING_MODEL" in
  let azure_openai_endpoint := env !! "AZURE_OPENAI_ENDPOINT" in
  let max_tokens := env !! "LLM_MAX_TOKENS" in
  credential ← DefaultAzureCredential;
  token_provider ←
    get_bearer_token_provider credential cognitive_services_scope;
  temperature ← lift (float_or (env !! "LLM_TEMPERATURE") DEFAULT_TEMPERATURE);
  max_tokens' ← lift (int_if_present max_tokens);
  modify (assign_llm
            (AzureOpenAI llm_deployment azure_openai_endpoint token_provider
                         true temperature max_tokens'));;
  let dimensions := env !! "EMBEDDING_DIM" in
  dimensions' ← lift (int_if_present dimensions);
  modify (assign_embed_model
            (AzureOpenAIEmbedding azure_openai_endpoint embedding_deployment
                                  token_provider true dimensions')).

Definition init_anthropic env : M unit :=
  model ← lift (subscript Anthropic.model_map (env !! "MODEL"));
  modify (assign_llm (Anthropic model));;
  model_name ←
    lift (subscript Anthropic.embed_model_map (env !! "EMBEDDING_MODEL"));
  modify (assign_embed_model (HuggingFaceEmbedding model_name)).

Definition init_gemini env : M unit :=
  model ← lift (subscript Gemini.model_map (env !! "MODEL"));
  modify (assign_llm (Gemini model));;
  model_name ←
    lift (subscript Gemini.embed_model_map (env !! "EMBEDDING_MODEL"));
  modify (assign_embed_model (GeminiEmbedding model_name)).

(** A [case "literal":] of the [match] statement: the subject matches when
    it equals the literal; [None] equals no literal. *)
Definition case (subject : option string) (literal : string) : bool :=
  bool_decide (subject = Some literal).

Definition invalid_model_provider (model_provider : option string)
  : exception :=
  ValueError (Message ("Invalid model provider: " +:+ str model_provider)).

Definition init_settings env : M unit :=
  print (env !! "AZURE_CONTAINER_REGISTRY_ENDPOINT");;
  let model_provider := env !! "MODEL_PROVIDER" in
  print model_provider;;
  (if case model_provider "openai" then init_openai env
   else if case model_provider "ollama" then init_ollama env
   else if case model_provider "anthropic" then init_anthropic env
   else if case model_provider "gemini" then init_gemini env
   else if case model_provider "azure-openai" then init_azure_openai env
   else raise (invalid_model_provider model_provider));;
  n ← lift (int (default "1024" (env !! "CHUNK_SIZE")));
  modify (assign_chunk_size n);;
  n ← lift (int (default "20" (env !! "CHUNK_OVERLAP")));
  modify (assign_chunk_overlap n).

(** The five enumerated tags, each with its literal and its initialiser;
    they name the branches of the [match] statement in the statements
    below. *)
Inductive provider : Type :=
| openai | ollama | anthropic | gemini | azure_openai.

Definition provider_tag (p : provider) : string :=
  match p with
  | openai => "openai"
  | ollama => "ollama"
  | anthropic => "anthropic"
  | gemini => "gemini"
  | azure_openai => "azure-openai"
  end.

Definition initializer (p : provider) env : M unit :=
  match p with
  | openai => init_openai env
  | ollama => init_ollama env
  | anthropic => init_anthropic env
  | gemini => init_gemini env
  | azure_openai => init_azure_openai env
  end.

(** The rest of [init_settings], after the [match] statement. *)
Definition set_chunking env : M unit :=
  n ← lift (int (default "1024" (env !! "CHUNK_SIZE")));
  modify (assign_chunk_size n);;
  n ← lift (int (default "20" (env !! "CHUNK_OVERLAP")));
  modify (assign_chunk_overlap n).

(** The world after the two [print] calls that open [init_settings]. *)
Definition diagnostics env (w : World) : World :=
  printed (env !! "MODEL_PROVIDER")
          (printed (env !! "AZURE_CONTAINER_REGISTRY_ENDPOINT") w).

(** The keyword arguments a client was built with; the outer [None] is a
    constructor that takes no such argument, the inner one an argument that
    was passed as [None]. *)
Definition llm_temperature (c : llm_client) : option float :=
  match c with
  | OpenAI _ t _ | AzureOpenAI _ _ _ _ t _ => Some t
  | _ => None
  end.

Definition llm_max_tokens (c : llm_client) : option (option Z) :=
  match c with
  | OpenAI _ _ n | AzureOpenAI _ _ _ _ _ n => Some n
  | _ => None
  end.

Definition embed_dimensions (c : embed_client) : option (option Z) :=
  match c with
  | OpenAIEmbedding _ n | AzureOpenAIEmbedding _ _ _ _ n => Some n
  | _ => None
  end.

(** An expression that gives a value. *)
Definition succeeds {A} (r : exception + A) : Prop := ∃ a, r = inr a.

(** A variable that is not set, or holds an integer numeral; one that is
    not set, or holds a float numeral; one that holds a key of [d]. *)
Definition int_readable (v : option string) : Prop :=
  match v with
  | None => True
  | Some s => is_Some (PyInt.int s)
  end.

Definition float_readable (v : option string) : Prop :=
  match v with
  | None => True
  | Some s => is_Some (float_of_str s)
  end.

Definition key_of (d : gmap string string) (v : option string) : Prop :=
  ∃ k, v = Some k ∧ is_Some (d !! k).

(** Every value the initialiser of [p] parses or looks up is well formed,
    and so are the two chunk parameters. *)
Definition readable (p : provider) env : Prop :=
  match p with
  | openai | azure_openai =>
      float_readable (env !! "LLM_TEMPERATURE")
      ∧ int_readable (env !! "LLM_MAX_TOKENS")
      ∧ int_readable (env !! "EMBEDDING_DIM")
  | ollama => float_readable (env !! "OLLAMA_REQUEST_TIMEOUT")
  | anthropic =>
      key_of Anthropic.model_map (env !! "MODEL")
      ∧ key_of Anthropic.embed_model_map (env !! "EMBEDDING_MODEL")
  | gemini =>
      key_of Gemini.model_map (env !! "MODEL")
      ∧ key_of Gemini.embed_model_map (env !! "EMBEDDING_MODEL")
  end.

Definition chunking_readable env : Prop :=
  int_readable (env !! "CHUNK_SIZE") ∧ int_readable (env !! "CHUNK_OVERLAP").

(** The variables named in [ks] apart, [env] and [env'] are the same. *)
Definition agree_outside (ks : list string) env env' : Prop :=
  ∀ k, k ∉ ks → env !! k = env' !! k.

(** The world before anything was configured. *)
Definition unset : Settings := mkSettings None None None None.
Definition start : World := mkWorld unset [] 0 [].

(** The world once [init_azure_openai] holds its credential and its token
    callback, and that callback. *)
Definition azure_token_provider (w : World) : token_provider :=
  TokenProvider (length (token_providers w)) (credentials w)
                cognitive_services_scope.

Definition azure_authenticated (w : World) : World :=
  mkWorld (settings w) (stdout w) (S (credentials w))
          (token_providers w ++ [azure_token_provider w]).


End Configurator.




(** ** A sample instance

    The statements below hold for every [float] type and every reading of
    float literals.  The examples run with this instance: rationals, with
    integer numerals read as floats. *)
Module Sample.

Definition externals : Externals := {|
  float := Q;
  float_of_str s := inject_Z <$> PyInt.int s;
  DEFAULT_TEMPERATURE := Qmake 1 10;
  DEFAULT_REQUEST_TIMEOUT := Qmake 30 1
|}.

Definition env_ollama : gmap string string :=
  list_to_map [("MODEL_PROVIDER", "ollama"); ("MODEL", "llama3");
               ("EMBEDDING_MODEL", "nomic-embed-text")].

Definition env_openai : gmap string string :=
  list_to_map [("MODEL_PROVIDER", "openai"); ("MODEL", "gpt-4o-mini");
               ("EMBEDDING_MODEL", "text-embedding-3-small");
               ("EMBEDDING_DIM", "1536"); ("CHUNK_SIZE", "512")].

Definition env_anthropic : gmap string string :=
  list_to_map [("MODEL_PROVIDER", "anthropic"); ("MODEL", "claude-3-haiku");
               ("EMBEDDING_MODEL", "all-MiniLM-L6-v2")].

Definition env_azure : gmap string string :=
  list_to_map [("MODEL_PROVIDER", "azure-openai");
               ("AZURE_DEPLOYMENT_NAME", "chat");
               ("AZURE_OPENAI_ENDPOINT", "https://example.openai.azure.com");
               ("EMBEDDING_MODEL", "embed"); ("LLM_MAX_TOKENS", "256")].

Definition env_unknown : gmap string string :=
  list_to_map [("MODEL_PROVIDER", "mistral")].

Definition env_abc : gmap string string :=
  <["CHUNK_SIZE" := "abc"]> env_ollama.

Definition env_slow : gmap string string :=
  <["OLLAMA_REQUEST_TIMEOUT" := "120"]> env_ollama.

Definition env_never : gmap string string :=
  <["OLLAMA_REQUEST_TIMEOUT" := "never"]> env_ollama.

Definition env_gpt5 : gmap string string :=
  <["MODEL" := "gpt-5"]> env_anthropic.

Definition env_bare : gmap string string :=
  list_to_map [("MODEL_PROVIDER", "anthropic")].

Definition env_unread : gmap string string :=
  <["LLM_MAX_TOKENS" := "abc"]> (<["EMBEDDING_DIM" := "abc"]> env_anthropic).

Definition env_many : gmap string string :=
  <["LLM_MAX_TOKENS" := "many"]> env_openai.


Definition env_gemini : gmap string string :=
  list_to_map [("MODEL_PROVIDER", "gemini"); ("MODEL", "gemini-pro");
               ("EMBEDDING_MODEL", "embedding-001")].

Definition env_half : gmap string string :=
  <["EMBEDDING_MODEL" := "bge-small"]> env_anthropic.

Definition env_wide : gmap string string :=
  <["EMBEDDING_DIM" := "wide"]> env_openai.

Definition env_hot : gmap string string :=
  <["LLM_TEMPERATURE" := "hot"]> env_many.

Definition env_masked : gmap string string :=
  <["CHUNK_SIZE" := "abc"]> env_gpt5.

Definition env_overlap : gmap string string :=
  <["CHUNK_OVERLAP" := "some"]> env_openai.

Definition env_empty_size : gmap string string :=
  <["CHUNK_SIZE" := ""]> env_ollama.

Definition env_renamed : gmap string string :=
  <["MODEL" := "no such model"]> (delete "EMBEDDING_MODEL" env_openai).

End Sample.

(** ** Reading integers *)

Example int_512 : PyInt.int "512" = Some 512.
Proof. reflexivity. Qed.

Example int_abc : PyInt.int "abc" = None.
Proof. reflexivity. Qed.

Example int_padded : PyInt.int "  -1_000 " = Some (-1000).
Proof. reflexivity. Qed.

Example int_empty : PyInt.int "" = None.
Proof. reflexivity. Qed.

Example int_double_underscore : PyInt.int "1__0" = None.
Proof. reflexivity. Qed.

Example int_fraction : PyInt.int "1.5" = None.
Proof. reflexivity. Qed.

Example int_tab : PyInt.int (String "009" "5") = Some 5.
Proof. reflexivity. Qed.

Example int_file_separator : PyInt.int (String "028" "5") = None.
Proof. reflexivity. Qed.





(** ** Running the monad *)
Section Facts.

Context {ext : Externals}.
Implicit Type env : gmap string string.

Ltac run :=
  unfold mbind, M_bind, mret, M_ret, lift, raise, modify, print; cbn.

Lemma init_ollama_run env w :
  init_ollama env w =
  match float_or (env !! "OLLAMA_REQUEST_TIMEOUT") DEFAULT_REQUEST_TIMEOUT with
  | inr t =>
      let base_url :=
        or_else (env !! "OLLAMA_BASE_URL") default_ollama_base_url in
      (assign_llm (Ollama base_url (env !! "MODEL") t)
         (assign_embed_model
            (OllamaEmbedding base_url (env !! "EMBEDDING_MODEL")) w),
       Return tt)
  | inl e => (w, Raise e)
  end.
Proof. unfold init_ollama. run. destruct (float_or _ _); reflexivity. Qed.

Lemma init_openai_run env w :
  init_openai env w =
  match float_or (env !! "LLM_TEMPERATURE") DEFAULT_TEMPERATURE with
  | inl e => (w, Raise e)
  | inr t =>
      match int_if_present (env !! "LLM_MAX_TOKENS") with
      | inl e => (w, Raise e)
      | inr n =>
          let w1 := assign_llm (OpenAI (env !! "MODEL") t n) w in
          match int_if_present (env !! "EMBEDDING_DIM") with
          | inl e => (w1, Raise e)
          | inr d =>
              (assign_embed_model
                 (OpenAIEmbedding (env !! "EMBEDDING_MODEL") d) w1,
               Return tt)
          end
      end
  end.
Proof.
  unfold init_openai. run.
  destruct (float_or _ _); [reflexivity|].
  destruct (int_if_present (env !! "LLM_MAX_TOKENS")); [reflexivity|]. cbn.
  destruct (int_if_present (env !! "EMBEDDING_DIM")); reflexivity.
Qed.

Lemma init_azure_openai_run env w :
  init_azure_openai env w =
  let tp := azure_token_provider w in
  let w0 := azure_authenticated w in
  match float_or (env !! "LLM_TEMPERATURE") DEFAULT_TEMPERATURE with
  | inl e => (w0, Raise e)
  | inr t =>
      match int_if_present (env !! "LLM_MAX_TOKENS") with
      | inl e => (w0, Raise e)
      | inr n =>
          let w1 :=
            assign_llm (AzureOpenAI (env !! "AZURE_DEPLOYMENT_NAME")
                          (env !! "AZURE_OPENAI_ENDPOINT") tp true t n) w0 in
          match int_if_present (env !! "EMBEDDING_DIM") with
          | inl e => (w1, Raise e)
          | inr d =>
              (assign_embed_model
                 (AzureOpenAIEmbedding (env !! "AZURE_OPENAI_ENDPOINT")
                    (env !! "EMBEDDING_MODEL") tp true d) w1,
               Return tt)
          end
      end
  end.
Proof.
  unfold init_azure_openai, DefaultAzureCredential, get_bearer_token_provider.
  run.
  destruct (float_or _ _); [reflexivity|].
  destruct (int_if_present (env !! "LLM_MAX_TOKENS")); [reflexivity|]. cbn.
  destruct (int_if_present (env !! "EMBEDDING_DIM")); reflexivity.
Qed.

Lemma init_anthropic_run env w :
  init_anthropic env w =
  match subscript Anthropic.model_map (env !! "MODEL") with
  | inl e => (w, Raise e)
  | inr m =>
      let w1 := assign_llm (Anthropic m) w in
      match subscript Anthropic.embed_model_map (env !! "EMBEDDING_MODEL") with
      | inl e => (w1, Raise e)
      | inr n => (assign_embed_model (HuggingFaceEmbedding n) w1, Return tt)
      end
  end.
Proof.
  unfold init_anthropic. run.
  destruct (subscript Anthropic.model_map _); [reflexivity|]. cbn.
  destruct (subscript Anthropic.embed_model_map _); reflexivity.
Qed.

Lemma init_gemini_run env w :
  init_gemini env w =
  match subscript Gemini.model_map (env !! "MODEL") with
  | inl e => (w, Raise e)
  | inr m =>
      let w1 := assign_llm (Gemini m) w in
      match subscript Gemini.embed_model_map (env !! "EMBEDDING_MODEL") with
      | inl e => (w1, Raise e)
      | inr n => (assign_embed_model (GeminiEmbedding n) w1, Return tt)
      end
  end.
Proof.
  unfold init_gemini. run.
  destruct (subscript Gemini.model_map _); [reflexivity|]. cbn.
  destruct (subscript Gemini.embed_model_map _); reflexivity.
Qed.

Lemma set_chunking_run env w :
  set_chunking env w =
  match int (default "1024" (env !! "CHUNK_SIZE")) with
  | inl e => (w, Raise e)
  | inr n =>
      let w1 := assign_chunk_size n w in
      match int (default "20" (env !! "CHUNK_OVERLAP")) with
      | inl e => (w1, Raise e)
      | inr m => (assign_chunk_overlap m w1, Return tt)
      end
  end.
Proof.
  unfold set_chunking. run.
  destruct (int (default "1024" _)); [reflexivity|]. cbn.
  destruct (int (default "20" _)); reflexivity.
Qed.

Lemma case_other (v : option string) :
  (∀ p, v ≠ Some (provider_tag p)) →
  case v "openai" = false ∧ case v "ollama" = false
  ∧ case v "anthropic" = false ∧ case v "gemini" = false
  ∧ case v "azure-openai" = false.
Proof.
  intros H. unfold case.
  repeat split; apply bool_decide_eq_false.
  - apply (H openai).
  - apply (H ollama).
  - apply (H anthropic).
  - apply (H gemini).
  - apply (H azure_openai).
Qed.

Lemma init_settings_selected env w (p : provider) :
  env !! "MODEL_PROVIDER" = Some (provider_tag p) →
  init_settings env w =
  match initializer p env (diagnostics env w) with
  | (w1, Return _) => set_chunking env w1
  | (w1, Raise e) => (w1, Raise e)
  end.
Proof.
  intros Hp. unfold init_settings, set_chunking, diagnostics. run.
  rewrite Hp. destruct p; reflexivity.
Qed.

Lemma init_settings_unselected env w :
  (∀ p, env !! "MODEL_PROVIDER" ≠ Some (provider_tag p)) →
  init_settings env w =
  (diagnostics env w,
   Raise (invalid_model_provider (env !! "MODEL_PROVIDER"))).
Proof.
  intros H. destruct (case_other _ H) as (H1 & H2 & H3 & H4 & H5).
  unfold init_settings, diagnostics. run.
  rewrite H1, H2, H3, H4, H5. reflexivity.
Qed.

(** ** Dispatch on the provider *)

(** C1: when [MODEL_PROVIDER] holds one of the five tags, [init_settings]
    runs the initialiser of that tag and then sets the chunk parameters;
    when it holds anything else, or is not set, [init_settings] raises a
    [ValueError] whose message names the value ([None] when it is not
    set). *)
Theorem init_settings_model_provider env w :
  (∀ p, env !! "MODEL_PROVIDER" = Some (provider_tag p) →
        init_settings env w =
        (initializer p env;; set_chunking env) (diagnostics env w))
  ∧ ((∀ p, env !! "MODEL_PROVIDER" ≠ Some (provider_tag p)) →
     init_settings env w =
     (diagnostics env w,
      Raise (ValueError (Message ("Invalid model provider: "
                                  +:+ str (env !! "MODEL_PROVIDER"))))))
  ∧ (env !! "MODEL_PROVIDER" = None →
     (init_settings env w).2 =
     Raise (ValueError (Message "Invalid model provider: None"))).
Proof.
  split; [|split].
  - intros p Hp. rewrite (init_settings_selected _ _ _ Hp). run.
    destruct (initializer p env _) as [w1 [[]|e]]; reflexivity.
  - apply init_settings_unselected.
  - intros Hn. rewrite init_settings_unselected.
    + rewrite Hn. reflexivity.
    + intros p. rewrite Hn. discriminate.
Qed.

(** ** The chunk parameters *)

Lemma int_parsed (s : string) (n : Z) : PyInt.int s = Some n → int s = inr n.
Proof. unfold int. intros ->. reflexivity. Qed.

Lemma int_refused (s : string) :
  PyInt.int s = None → int s = inl (ValueError (IntLiteral s)).
Proof. unfold int. intros ->. reflexivity. Qed.

(** C2: once the initialiser of the selected provider has returned, the
    chunk size is 1024 when [CHUNK_SIZE] is not set (and the overlap 20
    when [CHUNK_OVERLAP] is not set either), it is 512 for
    [CHUNK_SIZE="512"], and generally the integer the value reads as; a
    [CHUNK_SIZE] that does not read as an integer, such as ["abc"], makes
    [init_settings] raise [ValueError]. *)
Theorem init_settings_chunk_parameters env w p w1 :
  env !! "MODEL_PROVIDER" = Some (provider_tag p) →
  initializer p env (diagnostics env w) = (w1, Return tt) →
  (env !! "CHUNK_SIZE" = None →
   chunk_size (settings (init_settings env w).1) = Some 1024)
  ∧ (env !! "CHUNK_SIZE" = None → env !! "CHUNK_OVERLAP" = None →
     init_settings env w =
     (assign_chunk_overlap 20 (assign_chunk_size 1024 w1), Return tt))
  ∧ (env !! "CHUNK_SIZE" = Some "512" →
     chunk_size (settings (init_settings env w).1) = Some 512)
  ∧ (∀ n m, PyInt.int (default "1024" (env !! "CHUNK_SIZE")) = Some n →
            PyInt.int (default "20" (env !! "CHUNK_OVERLAP")) = Some m →
            init_settings env w =
            (assign_chunk_overlap m (assign_chunk_size n w1), Return tt))
  ∧ (∀ s, env !! "CHUNK_SIZE" = Some s → PyInt.int s = None →
          init_settings env w = (w1, Raise (ValueError (IntLiteral s))))
  ∧ (env !! "CHUNK_SIZE" = Some "abc" →
     init_settings env w = (w1, Raise (ValueError (IntLiteral "abc")))).
Proof.
  intros Hp Hinit.
  rewrite (init_settings_selected _ _ _ Hp), Hinit, set_chunking_run.
  repeat split.
  - intros ->. cbn. destruct (int (default "20" _)); reflexivity.
  - intros -> ->. reflexivity.
  - intros ->. cbn. destruct (int (default "20" _)); reflexivity.
  - intros n m Hn Hm. rewrite (int_parsed _ _ Hn). cbn.
    rewrite (int_parsed _ _ Hm). reflexivity.
  - intros s -> Hs. cbn. rewrite (int_refused _ Hs). reflexivity.
  - intros ->. reflexivity.
Qed.

(** ** The model maps *)

Lemma subscript_found (d : gmap string string) (k v : string) :
  d !! k = Some v → subscript d (Some k) = inr v.
Proof. unfold subscript. cbn. intros ->. reflexivity. Qed.

Lemma subscript_missing (d : gmap string string) (k : option string) :
  k ≫= (d !!.) = None → subscript d k = inl (KeyError k).
Proof. unfold subscript. intros ->. reflexivity. Qed.

(** C3: the anthropic initialiser resolves [MODEL] through a map of five
    entries and [EMBEDDING_MODEL] through a map of two; [claude-3-haiku]
    resolves to [claude-3-haiku-20240307]; a [MODEL] that is no key of the
    map, such as [gpt-5], or that is not set, makes the initialiser and
    [init_settings] raise [KeyError] before anything is assigned. *)
Theorem init_anthropic_model_map env w :
  size Anthropic.model_map = 5%nat
  ∧ size Anthropic.embed_model_map = 2%nat
  ∧ (env !! "MODEL" = Some "claude-3-haiku" →
     llm (settings (init_anthropic env w).1) =
     Some (Anthropic "claude-3-haiku-20240307"))
  ∧ (∀ k m e n, env !! "MODEL" = Some k → Anthropic.model_map !! k = Some m →
                env !! "EMBEDDING_MODEL" = Some e →
                Anthropic.embed_model_map !! e = Some n →
                init_anthropic env w =
                (assign_embed_model (HuggingFaceEmbedding n)
                   (assign_llm (Anthropic m) w), Return tt))
  ∧ (env !! "MODEL" ≫= (Anthropic.model_map !!.) = None →
     init_anthropic env w = (w, Raise (KeyError (env !! "MODEL"))))
  ∧ (env !! "MODEL_PROVIDER" = Some "anthropic" →
     env !! "MODEL" ≫= (Anthropic.model_map !!.) = None →
     init_settings env w =
     (diagnostics env w, Raise (KeyError (env !! "MODEL"))))
  ∧ Anthropic.model_map !! "gpt-5" = None.
Proof.
  repeat split.
  - intros Hm. rewrite init_anthropic_run, Hm. cbn.
    destruct (subscript Anthropic.embed_model_map _); reflexivity.
  - intros k m e n Hk Hm He Hn.
    rewrite init_anthropic_run, Hk, He.
    rewrite (subscript_found _ _ _ Hm), (subscript_found _ _ _ Hn).
    reflexivity.
  - intros Hm. rewrite init_anthropic_run, (subscript_missing _ _ Hm).
    reflexivity.
  - intros Hp Hm. rewrite (init_settings_selected _ _ anthropic Hp). cbn.
    rewrite init_anthropic_run, (subscript_missing _ _ Hm). reflexivity.
Qed.

(** ** The ollama initialiser *)

Lemma float_or_parsed (s : string) (t d : float) :
  float_of_str s = Some t → float_or (Some s) d = inr t.
Proof. unfold float_or, float_str. intros ->. reflexivity. Qed.

Lemma float_or_refused (s : string) (d : float) :
  float_of_str s = None →
  float_or (Some s) d = inl (ValueError (FloatLiteral s)).
Proof. unfold float_or, float_str. intros ->. reflexivity. Qed.

(** C7: [init_ollama] takes the base URL from [OLLAMA_BASE_URL] and falls
    back to [http://127.0.0.1:11434] when the variable is not set; it gives
    that one URL to the embedding client and to the generation client; the
    request timeout is [float] of [OLLAMA_REQUEST_TIMEOUT], the constant
    [DEFAULT_REQUEST_TIMEOUT] when the variable is not set, and a value
    that is no number raises [ValueError] before anything is assigned. *)
Theorem init_ollama_parameters env w :
  let base_url :=
    or_else (env !! "OLLAMA_BASE_URL") default_ollama_base_url in
  let configured t :=
    (assign_llm (Ollama base_url (env !! "MODEL") t)
       (assign_embed_model
          (OllamaEmbedding base_url (env !! "EMBEDDING_MODEL")) w),
     Return tt) in
  (env !! "OLLAMA_BASE_URL" = None → base_url = "http://127.0.0.1:11434")
  ∧ (∀ u, env !! "OLLAMA_BASE_URL" = Some u → u ≠ "" → base_url = u)
  ∧ (env !! "OLLAMA_REQUEST_TIMEOUT" = None →
     init_ollama env w = configured DEFAULT_REQUEST_TIMEOUT)
  ∧ (∀ s t, env !! "OLLAMA_REQUEST_TIMEOUT" = Some s →
            float_of_str s = Some t →
            init_ollama env w = configured t)
  ∧ (∀ s, env !! "OLLAMA_REQUEST_TIMEOUT" = Some s →
          float_of_str s = None →
          init_ollama env w = (w, Raise (ValueError (FloatLiteral s)))).
Proof.
  intros base_url configured. subst base_url configured.
  rewrite init_ollama_run. repeat split.
  - intros ->. reflexivity.
  - intros u -> Hu. destruct u; [contradiction|reflexivity].
  - intros ->. reflexivity.
  - intros s t -> Ht. rewrite (float_or_parsed _ _ _ Ht). reflexivity.
  - intros s -> Hs. rewrite (float_or_refused _ _ Hs). reflexivity.
Qed.

(** ** The azure-openai initialiser *)

Lemma float_or_inr (v : option string) (d t : float) :
  float_or v d = inr t ↔
  match v with
  | None => t = d
  | Some s => float_of_str s = Some t
  end.
Proof.
  unfold float_or, float_str. destruct v as [s|].
  - destruct (float_of_str s); cbn; split; congruence.
  - split; congruence.
Qed.

Lemma int_if_present_inr (v : option string) (r : option Z) :
  int_if_present v = inr r ↔
  match v with
  | None => r = None
  | Some s => ∃ k, PyInt.int s = Some k ∧ r = Some k
  end.
Proof.
  unfold int_if_present, int. destruct v as [s|].
  - destruct (PyInt.int s) as [k|]; cbn; split.
    + intros [= <-]. eauto.
    + intros (k' & [= <-] & ->). reflexivity.
    + discriminate.
    + intros (? & ? & _). discriminate.
  - split; congruence.
Qed.

(** C8: [init_azure_openai] obtains one credential and from it one
    bearer-token callback, for the audience
    [https://cognitiveservices.azure.com/.default], whatever happens
    afterwards; when the numeric fields read, that one callback is the
    [azure_ad_token_provider] of the generation client and of the embedding
    client, next to the deployment name and the endpoint taken from the
    environment, the temperature ([DEFAULT_TEMPERATURE] when
    [LLM_TEMPERATURE] is not set, the float read otherwise), and the
    maximal number of tokens and the embedding dimension ([None] when the
    variable is not set, the integer read otherwise). *)
Theorem init_azure_openai_token_provider env w :
  let tp := azure_token_provider w in
  tp_scope tp = "https://cognitiveservices.azure.com/.default"
  ∧ token_providers (init_azure_openai env w).1
    = (token_providers w ++ [tp])%list
  ∧ credentials (init_azure_openai env w).1 = S (credentials w)
  ∧ (∀ t n d,
       match env !! "LLM_TEMPERATURE" with
       | None => t = DEFAULT_TEMPERATURE
       | Some s => float_of_str s = Some t
       end →
       match env !! "LLM_MAX_TOKENS" with
       | None => n = None
       | Some s => ∃ k, PyInt.int s = Some k ∧ n = Some k
       end →
       match env !! "EMBEDDING_DIM" with
       | None => d = None
       | Some s => ∃ k, PyInt.int s = Some k ∧ d = Some k
       end →
       init_azure_openai env w =
       (assign_embed_model
          (AzureOpenAIEmbedding (env !! "AZURE_OPENAI_ENDPOINT")
             (env !! "EMBEDDING_MODEL") tp true d)
          (assign_llm
             (AzureOpenAI (env !! "AZURE_DEPLOYMENT_NAME")
                (env !! "AZURE_OPENAI_ENDPOINT") tp true t n)
             (azure_authenticated w)),
        Return tt))
  ∧ ((init_azure_openai env w).2 = Return tt →
     ∃ t n d,
       match env !! "LLM_TEMPERATURE" with
       | None => t = DEFAULT_TEMPERATURE
       | Some s => float_of_str s = Some t
       end
       ∧ match env !! "LLM_MAX_TOKENS" with
         | None => n = None
         | Some s => ∃ k, PyInt.int s = Some k ∧ n = Some k
         end
       ∧ match env !! "EMBEDDING_DIM" with
         | None => d = None
         | Some s => ∃ k, PyInt.int s = Some k ∧ d = Some k
         end
       ∧ llm (settings (init_azure_openai env w).1) =
         Some (AzureOpenAI (env !! "AZURE_DEPLOYMENT_NAME")
                 (env !! "AZURE_OPENAI_ENDPOINT") tp true t n)
       ∧ embed_model (settings (init_azure_openai env w).1) =
         Some (AzureOpenAIEmbedding (env !! "AZURE_OPENAI_ENDPOINT")
                 (env !! "EMBEDDING_MODEL") tp true d)).
Proof.
  intros tp. subst tp. rewrite init_azure_openai_run. cbn zeta.
  split; [reflexivity|].
  setoid_rewrite <- float_or_inr. setoid_rewrite <- int_if_present_inr.
  destruct (float_or _ _) as [e|t];
    [|destruct (int_if_present (env !! "LLM_MAX_TOKENS")) as [e|n];
      [|destruct (int_if_present (env !! "EMBEDDING_DIM")) as [e|d]]];
    cbn; (repeat split; try reflexivity; try discriminate).
  - intros ? ? ? [= <-] [= <-] [= <-]. reflexivity.
  - intros _. exists t, n, d. repeat split; reflexivity.
Qed.

(** ** Success and failure of a run *)

Lemma provider_cases (v : option string) :
  (∃ p, v = Some (provider_tag p)) ∨ (∀ p, v ≠ Some (provider_tag p)).
Proof.
  destruct (decide (v = Some "openai")); [left; by exists openai|].
  destruct (decide (v = Some "ollama")); [left; by exists ollama|].
  destruct (decide (v = Some "anthropic")); [left; by exists anthropic|].
  destruct (decide (v = Some "gemini")); [left; by exists gemini|].
  destruct (decide (v = Some "azure-openai"));
    [left; by exists azure_openai|].
  right. intros []; assumption.
Qed.

(** Rewrites every initialiser into its case analysis and splits on the
    parses and lookups it depends on. *)
Ltac cases_of_run :=
  cbn [initializer];
  repeat (progress
    (rewrite ?init_openai_run, ?init_ollama_run, ?init_anthropic_run,
       ?init_gemini_run, ?init_azure_openai_run, ?set_chunking_run;
     repeat match goal with
       | |- context [match ?x with inl _ => _ | inr _ => _ end] =>
           let E := fresh "E" in destruct x eqn:E
       end;
     cbn)).

Lemma initializer_returns p env w w1 :
  initializer p env w = (w1, Return tt) →
  is_Some (llm (settings w1)) ∧ is_Some (embed_model (settings w1))
  ∧ chunk_size (settings w1) = chunk_size (settings w)
  ∧ chunk_overlap (settings w1) = chunk_overlap (settings w).
Proof.
  destruct p; cases_of_run; intros [= <-]; cbn; repeat split; eauto.
Qed.

Lemma succeeds_float_or (v : option string) (d : float) :
  succeeds (float_or v d) ↔ float_readable v.
Proof.
  unfold succeeds, float_readable, float_or, float_str.
  destruct v as [s|]; [|split; eauto].
  destruct (float_of_str s) as [t|]; cbn; split.
  - eauto.
  - eauto.
  - intros [? ?]; discriminate.
  - intros [? ?]; discriminate.
Qed.

Lemma succeeds_int_if_present (v : option string) :
  succeeds (int_if_present v) ↔ int_readable v.
Proof.
  unfold succeeds, int_readable, int_if_present, int.
  destruct v as [s|]; [|split; eauto].
  destruct (PyInt.int s) as [n|]; cbn; split.
  - eauto.
  - eauto.
  - intros [? ?]; discriminate.
  - intros [? ?]; discriminate.
Qed.

Lemma succeeds_int_default (v : option string) (d : string) :
  is_Some (PyInt.int d) →
  succeeds (int (default d v)) ↔ int_readable v.
Proof.
  intros [n Hd]. unfold succeeds, int_readable, int.
  destruct v as [s|]; cbn.
  - destruct (PyInt.int s); cbn; split; eauto;
      intros [? ?]; discriminate.
  - rewrite Hd. cbn. split; eauto.
Qed.

Lemma succeeds_subscript (d : gmap string string) (v : option string) :
  succeeds (subscript d v) ↔ key_of d v.
Proof.
  unfold succeeds, key_of, subscript.
  destruct v as [k|]; cbn.
  - destruct (d !! k) as [x|] eqn:Hk; split.
    + intros _. exists k. rewrite Hk. eauto.
    + eauto.
    + intros [? ?]; discriminate.
    + intros (k' & [= <-] & [? Hx]). rewrite Hk in Hx. discriminate.
  - split; [intros [? ?]; discriminate|intros (? & ? & _); discriminate].
Qed.

Lemma initializer_succeeds p env w :
  (initializer p env w).2 = Return tt ↔
  match p with
  | openai | azure_openai =>
      succeeds (float_or (env !! "LLM_TEMPERATURE") DEFAULT_TEMPERATURE)
      ∧ succeeds (int_if_present (env !! "LLM_MAX_TOKENS"))
      ∧ succeeds (int_if_present (env !! "EMBEDDING_DIM"))
  | ollama =>
      succeeds (float_or (env !! "OLLAMA_REQUEST_TIMEOUT")
                         DEFAULT_REQUEST_TIMEOUT)
  | anthropic =>
      succeeds (subscript Anthropic.model_map (env !! "MODEL"))
      ∧ succeeds (subscript Anthropic.embed_model_map
                            (env !! "EMBEDDING_MODEL"))
  | gemini =>
      succeeds (subscript Gemini.model_map (env !! "MODEL"))
      ∧ succeeds (subscript Gemini.embed_model_map (env !! "EMBEDDING_MODEL"))
  end.
Proof.
  unfold succeeds.
  destruct p; cases_of_run; split;
    try solve [ discriminate | intros _; eauto 7 ];
    intros Hs; decompose record Hs; discriminate.
Qed.

Lemma initializer_succeeds_iff p env w :
  (initializer p env w).2 = Return tt ↔ readable p env.
Proof.
  rewrite initializer_succeeds. unfold readable.
  destruct p;
    rewrite ?succeeds_float_or, ?succeeds_int_if_present, ?succeeds_subscript;
    reflexivity.
Qed.

Lemma set_chunking_succeeds env w :
  (set_chunking env w).2 = Return tt ↔
  succeeds (int (default "1024" (env !! "CHUNK_SIZE")))
  ∧ succeeds (int (default "20" (env !! "CHUNK_OVERLAP"))).
Proof.
  unfold succeeds.
  cases_of_run; split;
    try solve [ discriminate | intros _; eauto 7 ];
    intros Hs; decompose record Hs; discriminate.
Qed.

Lemma set_chunking_succeeds_iff env w :
  (set_chunking env w).2 = Return tt ↔ chunking_readable env.
Proof.
  rewrite set_chunking_succeeds. unfold chunking_readable.
  rewrite !succeeds_int_default by (eexists; reflexivity). reflexivity.
Qed.

(** C10: an unrecognised [MODEL_PROVIDER] raises before any attribute of the
    shared settings is assigned, so all four keep their values; a chunk
    parameter that does not read as an integer raises after the selected
    initialiser has returned, with the generation client and the embedding
    client of that initialiser in the shared settings. *)
Theorem init_settings_failure_points env w :
  ((∀ p, env !! "MODEL_PROVIDER" ≠ Some (provider_tag p)) →
   settings (init_settings env w).1 = settings w
   ∧ ∃ msg, (init_settings env w).2 = Raise (ValueError (Message msg)))
  ∧ (∀ p w1,
       env !! "MODEL_PROVIDER" = Some (provider_tag p) →
       initializer p env (diagnostics env w) = (w1, Return tt) →
       PyInt.int (default "1024" (env !! "CHUNK_SIZE")) = None
       ∨ PyInt.int (default "20" (env !! "CHUNK_OVERLAP")) = None →
       ∃ c e literal,
         (init_settings env w).2 = Raise (ValueError (IntLiteral literal))
         ∧ llm (settings w1) = Some c
         ∧ embed_model (settings w1) = Some e
         ∧ llm (settings (init_settings env w).1) = Some c
         ∧ embed_model (settings (init_settings env w).1) = Some e).
Proof.
  split.
  - intros Hp. rewrite (init_settings_unselected _ _ Hp). cbn. eauto.
  - intros p w1 Hp Hinit Hbad.
    destruct (initializer_returns _ _ _ _ Hinit) as ([c Hc] & [e He] & _).
    exists c, e.
    rewrite (init_settings_selected _ _ _ Hp), Hinit, set_chunking_run.
    destruct (PyInt.int (default "1024" _)) as [n|] eqn:Hn.
    + destruct Hbad as [?|Hm]; [discriminate|].
      rewrite (int_parsed _ _ Hn), (int_refused _ Hm). cbn. eauto 10.
    + rewrite (int_refused _ Hn). cbn. eauto 10.
Qed.

(** C5, as the code has it: for each of the five tags [init_settings]
    returns exactly when every value that the selected initialiser parses
    or looks up is well formed and both chunk parameters read as integers;
    whenever it returns, the shared settings hold a generation client and
    an embedding client. *)
Theorem init_settings_returns_iff_readable env w p :
  env !! "MODEL_PROVIDER" = Some (provider_tag p) →
  ((init_settings env w).2 = Return tt
   ↔ readable p env ∧ chunking_readable env)
  ∧ ((init_settings env w).2 = Return tt →
     is_Some (llm (settings (init_settings env w).1))
     ∧ is_Some (embed_model (settings (init_settings env w).1))).
Proof.
  intros Hp. rewrite (init_settings_selected _ _ _ Hp).
  rewrite <- (initializer_succeeds_iff p env (diagnostics env w)).
  destruct (initializer p env _) as [w1 [[]|e]] eqn:Hinit; cbn.
  - rewrite <- (set_chunking_succeeds_iff env w1). split; [tauto|].
    destruct (initializer_returns _ _ _ _ Hinit) as (Hc & He & _).
    revert Hc He. cases_of_run; intros ? ? ?; (discriminate || by split).
  - split; [split; [discriminate|intros [? _]; discriminate]|discriminate].
Qed.

(** ** Two runs *)

Lemma init_settings_forgets env w (s' : Settings) :
  (init_settings env w).2 = Return tt →
  init_settings env (with_settings (λ _, s') w) = init_settings env w.
Proof.
  destruct (provider_cases (env !! "MODEL_PROVIDER")) as [[p Hp]|Hp].
  - rewrite !(init_settings_selected _ _ _ Hp).
    destruct p; cases_of_run; (discriminate || reflexivity).
  - rewrite (init_settings_unselected _ _ Hp). discriminate.
Qed.

(** C6, as the code has it: when [init_settings] is called a second time
    and returns, the shared settings are those the second call writes: all
    four attributes are assigned by it, and the world it leaves is the same
    whatever the first call had put in the settings. *)
Theorem init_settings_last_write_wins env1 env2 w (s' : Settings) :
  let w1 := (init_settings env1 w).1 in
  (init_settings env2 w1).2 = Return tt →
  init_settings env2 (with_settings (λ _, s') w1) = init_settings env2 w1
  ∧ ∃ c e n m,
      settings (init_settings env2 w1).1 =
      mkSettings (Some c) (Some e) (Some n) (Some m).
Proof.
  intros w1 Hret. split; [by apply init_settings_forgets|].
  revert Hret. generalize w1. clear w1. intros w1.
  destruct (provider_cases (env2 !! "MODEL_PROVIDER")) as [[p Hp]|Hp].
  - rewrite (init_settings_selected _ _ _ Hp).
    destruct p; cases_of_run; intros; (discriminate || eauto).
  - rewrite (init_settings_unselected _ _ Hp). discriminate.
Qed.

(** ** The registry endpoint *)

(** Closes [k ∉ ks] for literal names. *)
Ltac outside :=
  rewrite ?not_elem_of_cons; repeat split;
  solve [discriminate | apply not_elem_of_nil].

Ltac read_from H :=
  repeat match goal with
    | |- context [?env !! ?k] => rewrite (H k) by outside
    end.




(** ** The optional numeric fields *)

Lemma int_if_present_parsed (s : string) (n : Z) :
  PyInt.int s = Some n → int_if_present (Some s) = inr (Some n).
Proof. unfold int_if_present. intros Hn. by rewrite (int_parsed _ _ Hn). Qed.

Lemma int_if_present_refused (s : string) :
  PyInt.int s = None →
  int_if_present (Some s) = inl (ValueError (IntLiteral s)).
Proof. unfold int_if_present. intros Hn. by rewrite (int_refused _ Hn). Qed.

Lemma int_if_present_value (s : string) (r : option Z) :
  int_if_present (Some s) = inr r → ∃ n, PyInt.int s = Some n ∧ r = Some n.
Proof.
  unfold int_if_present, int.
  destruct (PyInt.int s) as [n|]; cbn; [|discriminate].
  intros [= <-]. eauto.
Qed.

Lemma float_or_value (s : string) (d t : float) :
  float_or (Some s) d = inr t → float_of_str s = Some t.
Proof.
  unfold float_or, float_str.
  destruct (float_of_str s); cbn; [|discriminate]. by intros [= <-].
Qed.

Lemma float_or_error (v : option string) (d : float) (e : exception) :
  float_or v d = inl e → ∃ why, e = ValueError why.
Proof.
  destruct v as [s|]; [|discriminate]. unfold float_or, float_str.
  destruct (float_of_str s); cbn; [discriminate|]. intros [= <-]. eauto.
Qed.

Lemma int_if_present_error (v : option string) (e : exception) :
  int_if_present v = inl e → ∃ why, e = ValueError why.
Proof.
  destruct v as [s|]; [|discriminate]. unfold int_if_present, int.
  destruct (PyInt.int s); cbn; [discriminate|]. intros [= <-]. eauto.
Qed.

Lemma float_or_reads (v : option string) (d t : float) :
  float_or v d = inr t →
  match v with
  | Some s => ∃ t', float_of_str s = Some t' ∧ Some t = Some t'
  | None => Some t = Some d
  end.
Proof.
  destruct v as [s|]; [|by intros [= <-]].
  intros Ht. exists t. split; [by eapply float_or_value|reflexivity].
Qed.

Lemma int_if_present_reads (v : option string) (r : option Z) :
  int_if_present v = inr r →
  match v with
  | Some s => ∃ n, PyInt.int s = Some n ∧ Some r = Some (Some n)
  | None => Some r = Some None
  end.
Proof.
  destruct v as [s|]; [|by intros [= <-]].
  intros Hr. destruct (int_if_present_value _ _ Hr) as (n & Hn & ->). eauto.
Qed.

Lemma numeric_field_raises p env w :
  p = openai ∨ p = azure_openai →
  (∃ e, float_or (env !! "LLM_TEMPERATURE") DEFAULT_TEMPERATURE = inl e)
  ∨ (∃ e, int_if_present (env !! "LLM_MAX_TOKENS") = inl e)
  ∨ (∃ e, int_if_present (env !! "EMBEDDING_DIM") = inl e) →
  ∃ why, (initializer p env w).2 = Raise (ValueError why).
Proof.
  intros [-> | ->] Hbad; cases_of_run;
    try (destruct Hbad as [[? ?]|[[? ?]|[? ?]]]; discriminate);
    match goal with
    | E : float_or _ _ = inl ?e |- context [Raise ?e] =>
        destruct (float_or_error _ _ _ E) as [why ->]
    | E : int_if_present _ = inl ?e |- context [Raise ?e] =>
        destruct (int_if_present_error _ _ E) as [why ->]
    end; eauto.
Qed.

(** C4, as the code has it: the initialisers that take the optional numeric
    fields are those of openai and azure-openai.  There a field that is
    present and does not parse raises [ValueError]; on return,
    [LLM_MAX_TOKENS] and [EMBEDDING_DIM] reach the clients as [None] when
    the variable is not set and as the integer read otherwise, and
    [LLM_TEMPERATURE] as the constant [DEFAULT_TEMPERATURE] when it is not
    set and as the float read otherwise.  For openai the embedding client
    gets no dimension without [EMBEDDING_DIM] and 1536 for
    [EMBEDDING_DIM="1536"].  The other three initialisers do not read the
    three variables. *)
Theorem optional_numeric_fields env w p :
  (p = openai ∨ p = azure_openai →
   let r := initializer p env w in
   (∀ s, env !! "LLM_TEMPERATURE" = Some s → float_of_str s = None →
         ∃ why, r.2 = Raise (ValueError why))
   ∧ (∀ s, env !! "LLM_MAX_TOKENS" = Some s → PyInt.int s = None →
           ∃ why, r.2 = Raise (ValueError why))
   ∧ (∀ s, env !! "EMBEDDING_DIM" = Some s → PyInt.int s = None →
           ∃ why, r.2 = Raise (ValueError why))
   ∧ (r.2 = Return tt →
      ∃ c e,
        llm (settings r.1) = Some c ∧ embed_model (settings r.1) = Some e
        ∧ match env !! "LLM_TEMPERATURE" with
          | None => llm_temperature c = Some DEFAULT_TEMPERATURE
          | Some s => ∃ t, float_of_str s = Some t
                           ∧ llm_temperature c = Some t
          end
        ∧ match env !! "LLM_MAX_TOKENS" with
          | None => llm_max_tokens c = Some None
          | Some s => ∃ n, PyInt.int s = Some n
                           ∧ llm_max_tokens c = Some (Some n)
          end
        ∧ match env !! "EMBEDDING_DIM" with
          | None => embed_dimensions e = Some None
          | Some s => ∃ n, PyInt.int s = Some n
                           ∧ embed_dimensions e = Some (Some n)
          end))
  ∧ ((init_openai env w).2 = Return tt →
     (env !! "EMBEDDING_DIM" = None →
      embed_model (settings (init_openai env w).1) =
      Some (OpenAIEmbedding (env !! "EMBEDDING_MODEL") None))
     ∧ (env !! "EMBEDDING_DIM" = Some "1536" →
        embed_model (settings (init_openai env w).1) =
        Some (OpenAIEmbedding (env !! "EMBEDDING_MODEL") (Some 1536))))
  ∧ (p ≠ openai → p ≠ azure_openai →
     ∀ env',
       agree_outside ["LLM_TEMPERATURE"; "LLM_MAX_TOKENS"; "EMBEDDING_DIM"]
                     env env' →
       initializer p env = initializer p env').
Proof.
  split; [|split].
  - intros Hp r. subst r. split; [|split; [|split]].
    + intros s Hs Hbad. apply numeric_field_raises; [done|].
      left. rewrite Hs, (float_or_refused _ _ Hbad). eauto.
    + intros s Hs Hbad. apply numeric_field_raises; [done|].
      right; left. rewrite Hs, (int_if_present_refused _ Hbad). eauto.
    + intros s Hs Hbad. apply numeric_field_raises; [done|].
      right; right. rewrite Hs, (int_if_present_refused _ Hbad). eauto.
    + destruct Hp as [-> | ->]; cases_of_run; try discriminate; intros _;
        (eexists; eexists; split; [reflexivity|]; split; [reflexivity|]);
        cbn; (split; [|split]).
      all: first [by apply float_or_reads | by apply int_if_present_reads].
  - rewrite init_openai_run. intros Hret.
    split; intros Hd; revert Hret; rewrite Hd;
      [ cbn [int_if_present]
      | rewrite (int_if_present_parsed "1536" 1536 eq_refl) ];
      cases_of_run; (discriminate || reflexivity).
  - intros Hp1 Hp2 env' H.
    destruct p; try congruence; cbn [initializer];
      unfold init_ollama, init_anthropic, init_gemini;
      read_from H; reflexivity.
Qed.

(** ** What a failed run leaves behind *)

Lemma int_error (s : string) (e : exception) :
  int s = inl e → e = ValueError (IntLiteral s) ∧ PyInt.int s = None.
Proof.
  unfold int. destruct (PyInt.int s); cbn; [discriminate|].
  intros [= <-]. split; reflexivity.
Qed.

Lemma subscript_error (d : gmap string string) (k : option string)
      (e : exception) :
  subscript d k = inl e → e = KeyError k ∧ k ≫= (d !!.) = None.
Proof.
  unfold subscript. destruct (k ≫= (d !!.)); [discriminate|].
  intros [= <-]. split; reflexivity.
Qed.

Lemma failed_initializer_frame_aux p env w w' e :
  initializer p env w = (w', Raise e) →
  embed_model (settings w') = embed_model (settings w)
  ∧ chunk_size (settings w') = chunk_size (settings w)
  ∧ chunk_overlap (settings w') = chunk_overlap (settings w).
Proof.
  destruct p; cases_of_run; intros [= <- <-]; cbn;
    repeat split; (discriminate || reflexivity).
Qed.

(** X3: an initialiser that raises has assigned neither the embedding client
    nor a chunk parameter, and has printed nothing; the ollama one has
    changed nothing at all. *)
Theorem failed_initializer_frame p env w w' e :
  initializer p env w = (w', Raise e) →
  embed_model (settings w') = embed_model (settings w)
  ∧ chunk_size (settings w') = chunk_size (settings w)
  ∧ chunk_overlap (settings w') = chunk_overlap (settings w)
  ∧ stdout w' = stdout w
  ∧ (p = ollama → w' = w).
Proof.
  destruct p; cases_of_run; intros [= <- <-]; cbn;
    repeat split; (discriminate || reflexivity).
Qed.

(** X4: when the generation half of an initialiser reads and the embedding half
    does not, the generation client has been replaced by the time the
    exception is raised. *)
Theorem generation_client_survives_embedding_failure env w :
  (∀ k m, env !! "MODEL" = Some k → Anthropic.model_map !! k = Some m →
          env !! "EMBEDDING_MODEL" ≫= (Anthropic.embed_model_map !!.) = None →
          init_anthropic env w =
          (assign_llm (Anthropic m) w,
           Raise (KeyError (env !! "EMBEDDING_MODEL"))))
  ∧ (∀ k m, env !! "MODEL" = Some k → Gemini.model_map !! k = Some m →
            env !! "EMBEDDING_MODEL" ≫= (Gemini.embed_model_map !!.) = None →
            init_gemini env w =
            (assign_llm (Gemini m) w,
             Raise (KeyError (env !! "EMBEDDING_MODEL"))))
  ∧ (∀ t n s,
       match env !! "LLM_TEMPERATURE" with
       | None => t = DEFAULT_TEMPERATURE
       | Some s => float_of_str s = Some t
       end →
       match env !! "LLM_MAX_TOKENS" with
       | None => n = None
       | Some s => ∃ k, PyInt.int s = Some k ∧ n = Some k
       end →
       env !! "EMBEDDING_DIM" = Some s → PyInt.int s = None →
       init_openai env w =
       (assign_llm (OpenAI (env !! "MODEL") t n) w,
        Raise (ValueError (IntLiteral s)))
       ∧ init_azure_openai env w =
         (assign_llm
            (AzureOpenAI (env !! "AZURE_DEPLOYMENT_NAME")
               (env !! "AZURE_OPENAI_ENDPOINT") (azure_token_provider w)
               true t n) (azure_authenticated w),
          Raise (ValueError (IntLiteral s)))).
Proof.
  split; [|split].
  - intros k m Hk Hm He.
    rewrite init_anthropic_run, Hk, (subscript_found _ _ _ Hm),
      (subscript_missing _ _ He). reflexivity.
  - intros k m Hk Hm He.
    rewrite init_gemini_run, Hk, (subscript_found _ _ _ Hm),
      (subscript_missing _ _ He). reflexivity.
  - intros t n s Ht Hn Hs Hbad.
    apply float_or_inr in Ht. apply int_if_present_inr in Hn.
    rewrite init_openai_run, init_azure_openai_run, Ht, Hn, Hs.
    rewrite (int_if_present_refused _ Hbad). split; reflexivity.
Qed.

(** X5: in the openai and azure-openai initialisers the temperature is read
    first and the maximal number of tokens second, both before anything is
    assigned: a temperature that is no float raises for that literal
    whatever the other fields hold, and a token limit that is no integer
    raises for that literal whatever the dimension holds. *)
Theorem numeric_fields_are_read_in_order env w p :
  p = openai ∨ p = azure_openai →
  (∀ s, env !! "LLM_TEMPERATURE" = Some s → float_of_str s = None →
        (initializer p env w).2 = Raise (ValueError (FloatLiteral s))
        ∧ settings (initializer p env w).1 = settings w)
  ∧ (∀ t s, float_or (env !! "LLM_TEMPERATURE") DEFAULT_TEMPERATURE = inr t →
            env !! "LLM_MAX_TOKENS" = Some s → PyInt.int s = None →
            (initializer p env w).2 = Raise (ValueError (IntLiteral s))
            ∧ settings (initializer p env w).1 = settings w).
Proof.
  intros Hp. split.
  - intros s Hs Hbad.
    destruct Hp as [-> | ->]; cbn [initializer];
      rewrite ?init_openai_run, ?init_azure_openai_run, Hs,
        (float_or_refused _ _ Hbad); split; reflexivity.
  - intros t s Ht Hs Hbad.
    destruct Hp as [-> | ->]; cbn [initializer];
      rewrite ?init_openai_run, ?init_azure_openai_run, Ht, Hs,
        (int_if_present_refused _ Hbad); split; reflexivity.
Qed.

(** X6: an exception of the selected initialiser is the exception of
    [init_settings]: the chunk parameters are then neither parsed nor
    assigned, so a malformed [CHUNK_SIZE] goes unreported. *)
Theorem initializer_failure_skips_chunking env w p w1 e :
  env !! "MODEL_PROVIDER" = Some (provider_tag p) →
  initializer p env (diagnostics env w) = (w1, Raise e) →
  init_settings env w = (w1, Raise e)
  ∧ chunk_size (settings (init_settings env w).1) = chunk_size (settings w)
  ∧ chunk_overlap (settings (init_settings env w).1)
    = chunk_overlap (settings w)
  ∧ embed_model (settings (init_settings env w).1) = embed_model (settings w).
Proof.
  intros Hp Hinit.
  rewrite (init_settings_selected _ _ _ Hp), Hinit.
  destruct (failed_initializer_frame_aux _ _ _ _ _ Hinit) as (He & Hs & Ho).
  cbn. repeat split; assumption.
Qed.

(** X7: a [CHUNK_OVERLAP] that is no integer raises after the chunk size has
    been assigned: the size is the new one, the overlap the old one. *)
Theorem chunk_overlap_failure_keeps_new_size env w p w1 n s :
  env !! "MODEL_PROVIDER" = Some (provider_tag p) →
  initializer p env (diagnostics env w) = (w1, Return tt) →
  PyInt.int (default "1024" (env !! "CHUNK_SIZE")) = Some n →
  env !! "CHUNK_OVERLAP" = Some s → PyInt.int s = None →
  init_settings env w
  = (assign_chunk_size n w1, Raise (ValueError (IntLiteral s)))
  ∧ chunk_size (settings (init_settings env w).1) = Some n
  ∧ chunk_overlap (settings (init_settings env w).1)
    = chunk_overlap (settings w).
Proof.
  intros Hp Hinit Hn Hs Hbad.
  destruct (initializer_returns _ _ _ _ Hinit) as (_ & _ & _ & Ho).
  rewrite (init_settings_selected _ _ _ Hp), Hinit, set_chunking_run.
  rewrite (int_parsed _ _ Hn), Hs. cbn. rewrite (int_refused _ Hbad).
  cbn. repeat split. exact Ho.
Qed.

(** ** Where an exception comes from *)

Lemma float_or_error_literal (v : option string) (d : float) (e : exception) :
  float_or v d = inl e → ∃ s, e = ValueError (FloatLiteral s).
Proof.
  destruct v as [s|]; [|discriminate]. unfold float_or, float_str.
  destruct (float_of_str s); cbn; [discriminate|]. intros [= <-]. eauto.
Qed.

Lemma int_if_present_error_literal (v : option string) (e : exception) :
  int_if_present v = inl e →
  ∃ s, v = Some s ∧ e = ValueError (IntLiteral s) ∧ PyInt.int s = None.
Proof.
  destruct v as [s|]; [|discriminate]. unfold int_if_present.
  destruct (int s) eqn:Hs; [|discriminate]. intros [= <-].
  destruct (int_error _ _ Hs) as [-> Hn]. eauto.
Qed.

Lemma int_default_error (v : option string) (d : string) (n : Z)
      (e : exception) :
  PyInt.int d = Some n → int (default d v) = inl e →
  ∃ s, v = Some s ∧ e = ValueError (IntLiteral s) ∧ PyInt.int s = None.
Proof.
  intros Hd He. destruct (int_error _ _ He) as [-> Hn].
  destruct v as [s|]; cbn in *; [eauto|congruence].
Qed.

(** Destructs what the failed parses and lookups of the context say. *)
Ltac origin_of_errors :=
  repeat match goal with
    | E : subscript _ _ = inl _ |- _ =>
        apply subscript_error in E; destruct E as [-> ?]
    | E : float_or _ _ = inl _ |- _ =>
        apply float_or_error_literal in E; destruct E as [? ->]
    | E : int_if_present _ = inl _ |- _ =>
        apply int_if_present_error_literal in E;
        destruct E as (? & ? & -> & ?)
    | E : int (default "1024" _) = inl _ |- _ =>
        apply (int_default_error _ "1024" 1024 _ eq_refl) in E;
        destruct E as (? & ? & -> & ?)
    | E : int (default "20" _) = inl _ |- _ =>
        apply (int_default_error _ "20" 20 _ eq_refl) in E;
        destruct E as (? & ? & -> & ?)
    end.

(** X9: a [KeyError] of [init_settings] comes from the anthropic or the gemini
    initialiser, and its key is the value of [MODEL] or of
    [EMBEDDING_MODEL] ([None] when the variable is not set). *)
Theorem key_error_origin env w k :
  (init_settings env w).2 = Raise (KeyError k) →
  (env !! "MODEL_PROVIDER" = Some "anthropic"
   ∨ env !! "MODEL_PROVIDER" = Some "gemini")
  ∧ (k = env !! "MODEL" ∨ k = env !! "EMBEDDING_MODEL").
Proof.
  destruct (provider_cases (env !! "MODEL_PROVIDER")) as [[p Hp]|Hp].
  - rewrite (init_settings_selected _ _ _ Hp).
    destruct p; cases_of_run; origin_of_errors; intros [= <-]; auto.
  - rewrite (init_settings_unselected _ _ Hp). discriminate.
Qed.

(** X10: a [ValueError] of [init_settings] for an integer literal names the
    value of [LLM_MAX_TOKENS], [EMBEDDING_DIM], [CHUNK_SIZE] or
    [CHUNK_OVERLAP] in the environment, and that value is indeed no
    integer: the defaults [1024] and [20] never raise. *)
Theorem int_error_origin env w s :
  (init_settings env w).2 = Raise (ValueError (IntLiteral s)) →
  PyInt.int s = None
  ∧ (env !! "LLM_MAX_TOKENS" = Some s ∨ env !! "EMBEDDING_DIM" = Some s
     ∨ env !! "CHUNK_SIZE" = Some s ∨ env !! "CHUNK_OVERLAP" = Some s).
Proof.
  destruct (provider_cases (env !! "MODEL_PROVIDER")) as [[p Hp]|Hp].
  - rewrite (init_settings_selected _ _ _ Hp).
    destruct p; cases_of_run; origin_of_errors; intros [= <-]; auto.
  - rewrite (init_settings_unselected _ _ Hp). discriminate.
Qed.

(** ** Credentials *)

(** X11: only the azure-openai branch touches the credential provider: with any
    other value of [MODEL_PROVIDER] no credential is made and no callback
    is requested; with [azure-openai] exactly one of each is, whatever the
    outcome. *)
Theorem credentials_only_for_azure env w :
  (env !! "MODEL_PROVIDER" ≠ Some "azure-openai" →
   credentials (init_settings env w).1 = credentials w
   ∧ token_providers (init_settings env w).1 = token_providers w)
  ∧ (env !! "MODEL_PROVIDER" = Some "azure-openai" →
     credentials (init_settings env w).1 = S (credentials w)
     ∧ token_providers (init_settings env w).1
       = (token_providers w ++ [azure_token_provider w])%list).
Proof.
  split.
  - intros Hna.
    destruct (provider_cases (env !! "MODEL_PROVIDER")) as [[p Hp]|Hp].
    + rewrite (init_settings_selected _ _ _ Hp).
      destruct p; try (exfalso; exact (Hna Hp));
        cases_of_run; split; reflexivity.
    + rewrite (init_settings_unselected _ _ Hp). split; reflexivity.
  - intros Hp. rewrite (init_settings_selected _ _ azure_openai Hp).
    cases_of_run; split; reflexivity.
Qed.

Lemma init_azure_openai_authenticates env w :
  credentials (init_azure_openai env w).1 = S (credentials w)
  ∧ token_providers (init_azure_openai env w).1
    = (token_providers w ++ [azure_token_provider w])%list.
Proof. rewrite init_azure_openai_run. cases_of_run; split; reflexivity. Qed.

Lemma init_azure_openai_clients env w :
  (init_azure_openai env w).2 = Return tt →
  ∃ t n d,
    llm (settings (init_azure_openai env w).1)
    = Some (AzureOpenAI (env !! "AZURE_DEPLOYMENT_NAME")
              (env !! "AZURE_OPENAI_ENDPOINT") (azure_token_provider w)
              true t n)
    ∧ embed_model (settings (init_azure_openai env w).1)
      = Some (AzureOpenAIEmbedding (env !! "AZURE_OPENAI_ENDPOINT")
                (env !! "EMBEDDING_MODEL") (azure_token_provider w) true d).
Proof.
  rewrite init_azure_openai_run. cases_of_run; try discriminate.
  intros _. eauto.
Qed.

(** X12: two calls of [init_azure_openai] make two credentials and two
    callbacks: the callback of the second call differs from that of the
    first, and the clients the second call builds carry the second. *)
Theorem azure_callback_is_fresh env env' w :
  let w1 := (init_azure_openai env w).1 in
  let w2 := (init_azure_openai env' w1).1 in
  token_providers w2
  = (token_providers w
     ++ [azure_token_provider w; azure_token_provider w1])%list
  ∧ credentials w2 = S (S (credentials w))
  ∧ tp_id (azure_token_provider w1) = S (tp_id (azure_token_provider w))
  ∧ tp_credential (azure_token_provider w1)
    = S (tp_credential (azure_token_provider w))
  ∧ ((init_azure_openai env' w1).2 = Return tt →
     ∃ t n d,
       llm (settings w2)
       = Some (AzureOpenAI (env' !! "AZURE_DEPLOYMENT_NAME")
                 (env' !! "AZURE_OPENAI_ENDPOINT") (azure_token_provider w1)
                 true t n)
       ∧ embed_model (settings w2)
         = Some (AzureOpenAIEmbedding (env' !! "AZURE_OPENAI_ENDPOINT")
                   (env' !! "EMBEDDING_MODEL") (azure_token_provider w1)
                   true d)).
Proof.
  intros w1 w2.
  destruct (init_azure_openai_authenticates env w) as [Hc1 Ht1].
  destruct (init_azure_openai_authenticates env' w1) as [Hc2 Ht2].
  fold w1 in Hc1, Ht1. fold w2 in Hc2, Ht2.
  split; [|split; [|split; [|split]]].
  - rewrite Ht2, Ht1, <- app_assoc. reflexivity.
  - rewrite Hc2, Hc1. reflexivity.
  - unfold azure_token_provider. cbn. rewrite Ht1, length_app.
    cbn. lia.
  - unfold azure_token_provider. cbn. exact Hc1.
  - apply init_azure_openai_clients.
Qed.

(** ** Running twice *)

(** X13: with any provider but azure-openai, a second call of [init_settings] on
    the same environment changes nothing in the shared settings and has the
    outcome of the first, also when the first one raised. *)
Theorem init_settings_idempotent env w :
  env !! "MODEL_PROVIDER" ≠ Some "azure-openai" →
  let r1 := init_settings env w in
  let r2 := init_settings env r1.1 in
  settings r2.1 = settings r1.1 ∧ r2.2 = r1.2.
Proof.
  intros Hna. cbn zeta.
  destruct (provider_cases (env !! "MODEL_PROVIDER")) as [[p Hp]|Hp].
  - rewrite !(init_settings_selected _ _ _ Hp).
    destruct p; try (exfalso; exact (Hna Hp));
      cases_of_run; split; reflexivity.
  - rewrite !(init_settings_unselected _ _ Hp). split; reflexivity.
Qed.

(** ** Names that are passed through *)

Lemma set_chunking_reads env env' :
  env !! "CHUNK_SIZE" = env' !! "CHUNK_SIZE" →
  env !! "CHUNK_OVERLAP" = env' !! "CHUNK_OVERLAP" →
  set_chunking env = set_chunking env'.
Proof. intros H1 H2. unfold set_chunking. rewrite H1, H2. reflexivity. Qed.

(** X14: the openai, ollama and azure-openai branches check none of the model
    names, deployment names or URLs: whether [init_settings] returns, the
    exception it raises and the chunk parameters it sets are the same for
    two environments that differ in those variables only. *)
Theorem names_are_not_validated env env' w p :
  p = openai ∨ p = ollama ∨ p = azure_openai →
  env !! "MODEL_PROVIDER" = Some (provider_tag p) →
  agree_outside ["MODEL"; "EMBEDDING_MODEL"; "OLLAMA_BASE_URL";
                 "AZURE_DEPLOYMENT_NAME"; "AZURE_OPENAI_ENDPOINT"]
                env env' →
  (init_settings env w).2 = (init_settings env' w).2
  ∧ chunk_size (settings (init_settings env w).1)
    = chunk_size (settings (init_settings env' w).1)
  ∧ chunk_overlap (settings (init_settings env w).1)
    = chunk_overlap (settings (init_settings env' w).1).
Proof.
  intros Hsel Hp H.
  assert (Hp' : env' !! "MODEL_PROVIDER" = Some (provider_tag p))
    by (rewrite <- (H "MODEL_PROVIDER") by outside; exact Hp).
  rewrite (init_settings_selected _ _ _ Hp), (init_settings_selected _ _ _ Hp').
  rewrite (set_chunking_reads env env') by (apply H; outside).
  destruct Hsel as [-> | [-> | ->]]; cbn [initializer];
    rewrite ?init_openai_run, ?init_ollama_run, ?init_azure_openai_run;
    read_from H; cases_of_run; repeat split; reflexivity.
Qed.

(** ** The tables *)

Lemma gemini_model_names (k v : string) :
  Gemini.model_map !! k = Some v → v = "models/" +:+ k.
Proof.
  unfold Gemini.model_map. intros H.
  repeat (apply lookup_insert_Some in H as [[<- <-]|[_ H]]; [reflexivity|]).
  by rewrite lookup_empty in H.
Qed.

Lemma gemini_embed_names (k v : string) :
  Gemini.embed_model_map !! k = Some v → v = "models/" +:+ k.
Proof.
  unfold Gemini.embed_model_map. intros H.
  repeat (apply lookup_insert_Some in H as [[<- <-]|[_ H]]; [reflexivity|]).
  by rewrite lookup_empty in H.
Qed.

(** X1: [init_gemini] returns exactly when [MODEL] is one of the three keys of
    its model map and [EMBEDDING_MODEL] one of the two keys of its embedding
    map; the clients then get those names behind the prefix [models/].  A
    [MODEL] that is no key raises [KeyError] with nothing assigned. *)
Theorem init_gemini_resolution env w :
  size Gemini.model_map = 3%nat
  ∧ size Gemini.embed_model_map = 2%nat
  ∧ ((init_gemini env w).2 = Return tt ↔
     is_Some (env !! "MODEL" ≫= (Gemini.model_map !!.))
     ∧ is_Some (env !! "EMBEDDING_MODEL" ≫= (Gemini.embed_model_map !!.)))
  ∧ ((init_gemini env w).2 = Return tt →
     ∃ k e, env !! "MODEL" = Some k ∧ env !! "EMBEDDING_MODEL" = Some e
            ∧ init_gemini env w =
              (assign_embed_model (GeminiEmbedding ("models/" +:+ e))
                 (assign_llm (Gemini ("models/" +:+ k)) w), Return tt))
  ∧ (env !! "MODEL" ≫= (Gemini.model_map !!.) = None →
     init_gemini env w = (w, Raise (KeyError (env !! "MODEL")))).
Proof.
  split; [reflexivity|]. split; [reflexivity|].
  rewrite init_gemini_run. unfold subscript.
  destruct (env !! "MODEL") as [k|]; cbn;
    [destruct (Gemini.model_map !! k) as [m|] eqn:Hm; cbn|];
    [destruct (env !! "EMBEDDING_MODEL") as [e|]; cbn;
      [destruct (Gemini.embed_model_map !! e) as [n|] eqn:Hn; cbn|]| |].
  - apply gemini_model_names in Hm as ->.
    apply gemini_embed_names in Hn as ->.
    repeat split; eauto. discriminate.
  - repeat split; try discriminate.
    intros [_ [? ?]]; discriminate.
  - repeat split; try discriminate.
    intros [_ [? ?]]; discriminate.
  - repeat split; try discriminate.
    intros [[? ?] _]; discriminate.
  - repeat split; try discriminate.
    intros [[? ?] _]; discriminate.
Qed.

Lemma anthropic_model_names (k v : string) :
  Anthropic.model_map !! k = Some v → String.prefix k v = true.
Proof.
  unfold Anthropic.model_map. intros H.
  repeat (apply lookup_insert_Some in H as [[<- <-]|[_ H]]; [reflexivity|]).
  by rewrite lookup_empty in H.
Qed.

Lemma anthropic_embed_names (k v : string) :
  Anthropic.embed_model_map !! k = Some v →
  v = "sentence-transformers/" +:+ k.
Proof.
  unfold Anthropic.embed_model_map. intros H.
  repeat (apply lookup_insert_Some in H as [[<- <-]|[_ H]]; [reflexivity|]).
  by rewrite lookup_empty in H.
Qed.

(** X2: when [init_anthropic] returns, the generation client has a model
    identifier that begins with the value of [MODEL], and the embedding
    client the value of [EMBEDDING_MODEL] behind the prefix
    [sentence-transformers/]. *)
Theorem init_anthropic_names env w :
  (init_anthropic env w).2 = Return tt →
  ∃ k e m,
    env !! "MODEL" = Some k ∧ env !! "EMBEDDING_MODEL" = Some e
    ∧ String.prefix k m = true
    ∧ init_anthropic env w =
      (assign_embed_model
         (HuggingFaceEmbedding ("sentence-transformers/" +:+ e))
         (assign_llm (Anthropic m) w), Return tt).
Proof.
  rewrite init_anthropic_run. unfold subscript.
  destruct (env !! "MODEL") as [k|]; cbn; [|discriminate].
  destruct (Anthropic.model_map !! k) as [m|] eqn:Hm; cbn; [|discriminate].
  destruct (env !! "EMBEDDING_MODEL") as [e|]; cbn; [|discriminate].
  destruct (Anthropic.embed_model_map !! e) as [n|] eqn:Hn; cbn;
    [|discriminate].
  intros _. exists k, e, m.
  apply anthropic_embed_names in Hn as ->.
  apply anthropic_model_names in Hm. auto.
Qed.

(** ** Empty values *)

(** X8: an empty [OLLAMA_BASE_URL] counts as one that is not set, while an
    empty [CHUNK_SIZE] does not: it is parsed and raises [ValueError]. *)
Theorem empty_values env w :
  init_ollama (<["OLLAMA_BASE_URL" := ""]> env) w
  = init_ollama (delete "OLLAMA_BASE_URL" env) w
  ∧ (∀ p w1, env !! "MODEL_PROVIDER" = Some (provider_tag p) →
             initializer p env (diagnostics env w) = (w1, Return tt) →
             env !! "CHUNK_SIZE" = Some "" →
             init_settings env w = (w1, Raise (ValueError (IntLiteral "")))).
Proof.
  split.
  - rewrite !init_ollama_run.
    rewrite lookup_insert_eq, lookup_delete_eq.
    rewrite !lookup_insert_ne, !lookup_delete_ne by discriminate.
    reflexivity.
  - intros p w1 Hp Hinit Hs.
    rewrite (init_settings_selected _ _ _ Hp), Hinit, set_chunking_run, Hs.
    reflexivity.
Qed.

End Facts.

(** ** The statements at the sample instance *)

#[local] Existing Instance Sample.externals.

Lemma init_settings_model_provider_witness :
  init_settings Sample.env_ollama start =
  (initializer ollama Sample.env_ollama;; set_chunking Sample.env_ollama)
    (diagnostics Sample.env_ollama start)
  ∧ init_settings Sample.env_unknown start =
    (diagnostics Sample.env_unknown start,
     Raise (ValueError (Message "Invalid model provider: mistral")))
  ∧ (init_settings ∅ start).2 =
    Raise (ValueError (Message "Invalid model provider: None")).
Proof.
  split; [|split].
  - apply (proj1 (init_settings_model_provider Sample.env_ollama start) ollama).
    reflexivity.
  - apply (proj1 (proj2 (init_settings_model_provider Sample.env_unknown start))).
    intros []; vm_compute; discriminate.
  - apply (proj2 (proj2 (init_settings_model_provider ∅ start))).
    reflexivity.
Defined.

Lemma init_settings_chunk_parameters_witness :
  chunk_size (settings (init_settings Sample.env_ollama start).1) = Some 1024
  ∧ chunk_overlap (settings (init_settings Sample.env_ollama start).1)
    = Some 20
  ∧ chunk_size (settings (init_settings Sample.env_openai start).1) = Some 512
  ∧ (init_settings Sample.env_abc start).2
    = Raise (ValueError (IntLiteral "abc")).
Proof.
  pose proof (init_settings_chunk_parameters Sample.env_ollama start ollama
                (initializer ollama Sample.env_ollama
                   (diagnostics Sample.env_ollama start)).1
                eq_refl eq_refl) as (Hsize & Hboth & _).
  pose proof (init_settings_chunk_parameters Sample.env_openai start openai
                (initializer openai Sample.env_openai
                   (diagnostics Sample.env_openai start)).1
                eq_refl eq_refl) as (_ & _ & H512 & _).
  pose proof (init_settings_chunk_parameters Sample.env_abc start ollama
                (initializer ollama Sample.env_abc
                   (diagnostics Sample.env_abc start)).1
                eq_refl eq_refl) as (_ & _ & _ & _ & _ & Habc).
  split; [|split; [|split]].
  - apply Hsize. reflexivity.
  - rewrite Hboth; reflexivity.
  - apply H512. reflexivity.
  - rewrite Habc; reflexivity.
Defined.

Lemma init_anthropic_model_map_witness :
  llm (settings (init_anthropic Sample.env_anthropic start).1)
  = Some (Anthropic "claude-3-haiku-20240307")
  ∧ init_anthropic Sample.env_gpt5 start = (start, Raise (KeyError (Some "gpt-5")))
  ∧ (init_settings Sample.env_gpt5 start).2 = Raise (KeyError (Some "gpt-5")).
Proof.
  pose proof (init_anthropic_model_map Sample.env_anthropic start)
    as (_ & _ & Hhaiku & _).
  pose proof (init_anthropic_model_map Sample.env_gpt5 start)
    as (_ & _ & _ & _ & Hmissing & Hfatal & _).
  split; [|split].
  - apply Hhaiku. reflexivity.
  - apply Hmissing. reflexivity.
  - rewrite Hfatal; reflexivity.
Defined.

(** C4 as stated fails: with the anthropic provider selected,
    [LLM_MAX_TOKENS] and [EMBEDDING_DIM] hold a value that is no integer and
    [init_settings] returns. *)
Lemma unread_numeric_fields_are_not_fatal :
  Sample.env_unread !! "MODEL_PROVIDER" = Some "anthropic"
  ∧ Sample.env_unread !! "LLM_MAX_TOKENS" = Some "abc"
  ∧ Sample.env_unread !! "EMBEDDING_DIM" = Some "abc"
  ∧ PyInt.int "abc" = None
  ∧ (init_settings Sample.env_unread start).2 = Return tt.
Proof. repeat split. Qed.

Lemma optional_numeric_fields_witness :
  embed_model (settings (init_openai Sample.env_openai start).1)
  = Some (OpenAIEmbedding (Some "text-embedding-3-small") (Some 1536))
  ∧ embed_model (settings (init_openai ∅ start).1)
    = Some (OpenAIEmbedding None None)
  ∧ (∃ why, (init_openai Sample.env_many start).2 = Raise (ValueError why))
  ∧ initializer anthropic Sample.env_anthropic
    = initializer anthropic Sample.env_unread.
Proof.
  pose proof (optional_numeric_fields Sample.env_openai start openai)
    as (_ & H1536 & _).
  pose proof (optional_numeric_fields ∅ start openai) as (_ & Hunset & _).
  pose proof (optional_numeric_fields Sample.env_many start openai)
    as (Hfatal & _).
  pose proof (optional_numeric_fields Sample.env_anthropic start anthropic)
    as (_ & _ & Hunread).
  split; [|split; [|split]].
  - apply (proj2 (H1536 eq_refl)). reflexivity.
  - apply (proj1 (Hunset eq_refl)). reflexivity.
  - destruct (Hfatal (or_introl eq_refl)) as (_ & Htokens & _).
    apply (Htokens "many"); reflexivity.
  - apply Hunread; [discriminate|discriminate|].
    intros k Hk. unfold Sample.env_unread.
    rewrite !lookup_insert_ne; [reflexivity| |];
      intros <-; apply Hk; rewrite !elem_of_cons; auto.
Defined.

(** C5 as stated fails: [anthropic] is one of the five tags, and with
    [MODEL] not set [init_settings] raises [KeyError] and leaves no client
    in the shared settings. *)
Lemma valid_provider_can_fail :
  Sample.env_bare !! "MODEL_PROVIDER" = Some (provider_tag anthropic)
  ∧ (init_settings Sample.env_bare start).2 = Raise (KeyError None)
  ∧ llm (settings (init_settings Sample.env_bare start).1) = None
  ∧ embed_model (settings (init_settings Sample.env_bare start).1) = None.
Proof. repeat split. Qed.

Lemma init_settings_returns_iff_readable_witness :
  (init_settings Sample.env_openai start).2 = Return tt
  ∧ is_Some (llm (settings (init_settings Sample.env_openai start).1))
  ∧ is_Some (embed_model (settings (init_settings Sample.env_openai start).1)).
Proof.
  pose proof (init_settings_returns_iff_readable Sample.env_openai start openai
                eq_refl) as (Hiff & Hclients).
  assert (Hret : (init_settings Sample.env_openai start).2 = Return tt).
  { apply Hiff. unfold readable, chunking_readable.
    repeat split; try exact I; eexists; reflexivity. }
  split; [exact Hret|]. apply Hclients. exact Hret.
Defined.

(** C6 as stated fails: a second call that raises leaves a mixture.  After
    a call for openai, a call for anthropic whose [EMBEDDING_MODEL] is no
    key raises [KeyError] with its own generation client in the settings,
    beside the embedding client and the chunk parameters of the first
    call. *)
Lemma second_call_can_merge :
  let w1 := (init_settings Sample.env_openai start).1 in
  let r := init_settings Sample.env_half w1 in
  r.2 = Raise (KeyError (Some "bge-small"))
  ∧ llm (settings r.1) = Some (Anthropic "claude-3-haiku-20240307")
  ∧ embed_model (settings r.1)
    = Some (OpenAIEmbedding (Some "text-embedding-3-small") (Some 1536))
  ∧ embed_model (settings r.1) = embed_model (settings w1)
  ∧ chunk_size (settings r.1) = Some 512
  ∧ Sample.env_half !! "CHUNK_SIZE" = None.
Proof. repeat split. Qed.

Lemma init_settings_last_write_wins_witness :
  let w1 := (init_settings Sample.env_openai start).1 in
  init_settings Sample.env_anthropic (with_settings (λ _, unset) w1)
  = init_settings Sample.env_anthropic w1
  ∧ ∃ c e n m,
      settings (init_settings Sample.env_anthropic w1).1
      = mkSettings (Some c) (Some e) (Some n) (Some m).
Proof.
  apply (init_settings_last_write_wins Sample.env_openai Sample.env_anthropic
           start unset).
  reflexivity.
Defined.

Lemma init_ollama_parameters_witness :
  init_ollama Sample.env_ollama start
  = (assign_llm (Ollama "http://127.0.0.1:11434" (Some "llama3")
                        DEFAULT_REQUEST_TIMEOUT)
       (assign_embed_model
          (OllamaEmbedding "http://127.0.0.1:11434" (Some "nomic-embed-text"))
          start),
     Return tt)
  ∧ llm (settings (init_ollama Sample.env_slow start).1)
    = Some (Ollama "http://127.0.0.1:11434" (Some "llama3") (inject_Z 120))
  ∧ init_ollama Sample.env_never start
    = (start, Raise (ValueError (FloatLiteral "never"))).
Proof.
  pose proof (init_ollama_parameters Sample.env_ollama start)
    as (_ & _ & Hdefault & _).
  pose proof (init_ollama_parameters Sample.env_slow start)
    as (_ & _ & _ & Hparsed & _).
  pose proof (init_ollama_parameters Sample.env_never start)
    as (_ & _ & _ & _ & Hrefused).
  split; [|split].
  - rewrite Hdefault; reflexivity.
  - rewrite (Hparsed "120" (inject_Z 120)); reflexivity.
  - apply Hrefused; reflexivity.
Defined.

Lemma init_azure_openai_token_provider_witness :
  token_providers (init_azure_openai Sample.env_azure start).1
  = [TokenProvider 0 0 "https://cognitiveservices.azure.com/.default"]
  ∧ init_azure_openai Sample.env_azure start
    = (assign_embed_model
         (AzureOpenAIEmbedding (Some "https://example.openai.azure.com")
            (Some "embed") (azure_token_provider start) true None)
         (assign_llm
            (AzureOpenAI (Some "chat")
               (Some "https://example.openai.azure.com")
               (azure_token_provider start) true DEFAULT_TEMPERATURE
               (Some 256))
            (azure_authenticated start)),
       Return tt).
Proof.
  pose proof (init_azure_openai_token_provider Sample.env_azure start)
    as (_ & Hone & _ & Hrun & _).
  split; [exact Hone|].
  apply (Hrun DEFAULT_TEMPERATURE (Some 256) None).
  - reflexivity.
  - exists 256. split; reflexivity.
  - reflexivity.
Defined.


Lemma init_settings_failure_points_witness :
  settings (init_settings Sample.env_unknown start).1 = settings start
  ∧ ∃ c e literal,
      (init_settings Sample.env_abc start).2
      = Raise (ValueError (IntLiteral literal))
      ∧ llm (settings (init_settings Sample.env_abc start).1) = Some c
      ∧ embed_model (settings (init_settings Sample.env_abc start).1) = Some e.
Proof.
  pose proof (init_settings_failure_points Sample.env_unknown start)
    as (Hunknown & _).
  pose proof (init_settings_failure_points Sample.env_abc start)
    as (_ & Hchunk).
  split.
  - apply Hunknown. intros []; vm_compute; discriminate.
  - destruct (Hchunk ollama
                (initializer ollama Sample.env_abc
                   (diagnostics Sample.env_abc start)).1
                eq_refl eq_refl (or_introl eq_refl))
      as (c & e & literal & Hraise & _ & _ & Hc & He).
    exists c, e, literal. repeat split; assumption.
Defined.

Lemma init_gemini_resolution_witness :
  init_gemini Sample.env_gemini start
  = (assign_embed_model (GeminiEmbedding "models/embedding-001")
       (assign_llm (Gemini "models/gemini-pro") start), Return tt)
  ∧ init_gemini Sample.env_openai start
    = (start, Raise (KeyError (Some "gpt-4o-mini"))).
Proof.
  pose proof (init_gemini_resolution Sample.env_gemini start)
    as (_ & _ & Hiff & Hnames & _).
  pose proof (init_gemini_resolution Sample.env_openai start)
    as (_ & _ & _ & _ & Hmissing).
  split.
  - assert (Hret : (init_gemini Sample.env_gemini start).2 = Return tt).
    { apply Hiff. split; eexists; reflexivity. }
    destruct (Hnames Hret) as (k & e & Hk & He & ->).
    injection Hk as <-. injection He as <-. reflexivity.
  - apply Hmissing. reflexivity.
Defined.

Lemma init_anthropic_names_witness :
  ∃ k e m,
    Sample.env_anthropic !! "MODEL" = Some k
    ∧ Sample.env_anthropic !! "EMBEDDING_MODEL" = Some e
    ∧ String.prefix k m = true
    ∧ init_anthropic Sample.env_anthropic start =
      (assign_embed_model
         (HuggingFaceEmbedding ("sentence-transformers/" +:+ e))
         (assign_llm (Anthropic m) start), Return tt).
Proof. apply (init_anthropic_names Sample.env_anthropic start). reflexivity. Defined.

Lemma failed_initializer_frame_witness :
  embed_model (settings (initializer anthropic Sample.env_half start).1) = None
  ∧ llm (settings (initializer anthropic Sample.env_half start).1)
    = Some (Anthropic "claude-3-haiku-20240307")
  ∧ (initializer ollama Sample.env_never start).1 = start.
Proof.
  pose proof (failed_initializer_frame anthropic Sample.env_half start
                (initializer anthropic Sample.env_half start).1
                (KeyError (Some "bge-small")) eq_refl) as (Hembed & _).
  pose proof (failed_initializer_frame ollama Sample.env_never start
                (initializer ollama Sample.env_never start).1
                (ValueError (FloatLiteral "never")) eq_refl)
    as (_ & _ & _ & _ & Hollama).
  split; [exact Hembed|]. split; [reflexivity|]. apply Hollama. reflexivity.
Defined.

Lemma generation_client_survives_embedding_failure_witness :
  init_anthropic Sample.env_half start
  = (assign_llm (Anthropic "claude-3-haiku-20240307") start,
     Raise (KeyError (Some "bge-small")))
  ∧ init_openai Sample.env_wide start
    = (assign_llm (OpenAI (Some "gpt-4o-mini") DEFAULT_TEMPERATURE None) start,
       Raise (ValueError (IntLiteral "wide"))).
Proof.
  pose proof (generation_client_survives_embedding_failure Sample.env_half
                start) as (Hanthropic & _).
  pose proof (generation_client_survives_embedding_failure Sample.env_wide
                start) as (_ & _ & Hopenai).
  split.
  - apply (Hanthropic "claude-3-haiku" "claude-3-haiku-20240307");
      reflexivity.
  - apply (Hopenai DEFAULT_TEMPERATURE None "wide"); reflexivity.
Defined.

Lemma numeric_fields_are_read_in_order_witness :
  (initializer openai Sample.env_hot start).2
  = Raise (ValueError (FloatLiteral "hot"))
  ∧ (initializer azure_openai Sample.env_many start).2
    = Raise (ValueError (IntLiteral "many")).
Proof.
  pose proof (numeric_fields_are_read_in_order Sample.env_hot start openai
                (or_introl eq_refl)) as (Hfirst & _).
  pose proof (numeric_fields_are_read_in_order Sample.env_many start
                azure_openai (or_intror eq_refl)) as (_ & Hsecond).
  split.
  - apply (Hfirst "hot"); reflexivity.
  - apply (Hsecond DEFAULT_TEMPERATURE "many"); reflexivity.
Defined.

Lemma initializer_failure_skips_chunking_witness :
  Sample.env_masked !! "CHUNK_SIZE" = Some "abc"
  ∧ (init_settings Sample.env_masked start).2
    = Raise (KeyError (Some "gpt-5"))
  ∧ chunk_size (settings (init_settings Sample.env_masked start).1) = None.
Proof.
  pose proof (initializer_failure_skips_chunking Sample.env_masked start
                anthropic
                (initializer anthropic Sample.env_masked
                   (diagnostics Sample.env_masked start)).1
                (KeyError (Some "gpt-5")) eq_refl eq_refl)
    as (Hraise & Hsize & _).
  split; [reflexivity|]. split; [rewrite Hraise; reflexivity|exact Hsize].
Defined.

Lemma chunk_overlap_failure_keeps_new_size_witness :
  (init_settings Sample.env_overlap start).2
  = Raise (ValueError (IntLiteral "some"))
  ∧ chunk_size (settings (init_settings Sample.env_overlap start).1)
    = Some 512
  ∧ chunk_overlap (settings (init_settings Sample.env_overlap start).1)
    = None.
Proof.
  pose proof (chunk_overlap_failure_keeps_new_size Sample.env_overlap start
                openai
                (initializer openai Sample.env_overlap
                   (diagnostics Sample.env_overlap start)).1
                512 "some" eq_refl eq_refl eq_refl eq_refl eq_refl)
    as (Hraise & Hsize & Hoverlap).
  split; [rewrite Hraise; reflexivity|]. split; assumption.
Defined.

Lemma empty_values_witness :
  init_settings Sample.env_empty_size start
  = ((initializer ollama Sample.env_empty_size
        (diagnostics Sample.env_empty_size start)).1,
     Raise (ValueError (IntLiteral ""))).
Proof.
  apply (proj2 (empty_values Sample.env_empty_size start) ollama);
    reflexivity.
Defined.

Lemma key_error_origin_witness :
  (Sample.env_gpt5 !! "MODEL_PROVIDER" = Some "anthropic"
   ∨ Sample.env_gpt5 !! "MODEL_PROVIDER" = Some "gemini")
  ∧ (Some "gpt-5" = Sample.env_gpt5 !! "MODEL"
     ∨ Some "gpt-5" = Sample.env_gpt5 !! "EMBEDDING_MODEL").
Proof.
  apply (key_error_origin Sample.env_gpt5 start (Some "gpt-5")). reflexivity.
Defined.

Lemma int_error_origin_witness :
  PyInt.int "abc" = None
  ∧ (Sample.env_abc !! "LLM_MAX_TOKENS" = Some "abc"
     ∨ Sample.env_abc !! "EMBEDDING_DIM" = Some "abc"
     ∨ Sample.env_abc !! "CHUNK_SIZE" = Some "abc"
     ∨ Sample.env_abc !! "CHUNK_OVERLAP" = Some "abc").
Proof. apply (int_error_origin Sample.env_abc start "abc"). reflexivity. Defined.

Lemma credentials_only_for_azure_witness :
  credentials (init_settings Sample.env_openai start).1 = 0%nat
  ∧ credentials (init_settings Sample.env_azure start).1 = 1%nat.
Proof.
  split.
  - apply (proj1 (credentials_only_for_azure Sample.env_openai start)).
    discriminate.
  - apply (proj2 (credentials_only_for_azure Sample.env_azure start)).
    reflexivity.
Defined.

Lemma azure_callback_is_fresh_witness :
  let w1 := (init_azure_openai Sample.env_azure start).1 in
  let w2 := (init_azure_openai Sample.env_azure w1).1 in
  token_providers w2
  = [TokenProvider 0 0 cognitive_services_scope;
     TokenProvider 1 1 cognitive_services_scope]
  ∧ ∃ t n d,
      llm (settings w2)
      = Some (AzureOpenAI (Some "chat")
                (Some "https://example.openai.azure.com")
                (TokenProvider 1 1 cognitive_services_scope) true t n)
      ∧ embed_model (settings w2)
        = Some (AzureOpenAIEmbedding
                  (Some "https://example.openai.azure.com") (Some "embed")
                  (TokenProvider 1 1 cognitive_services_scope) true d).
Proof.
  pose proof (azure_callback_is_fresh Sample.env_azure Sample.env_azure start)
    as (Hlist & _ & _ & _ & Hclients).
  split; [exact Hlist|]. apply Hclients. reflexivity.
Defined.

Lemma init_settings_idempotent_witness :
  let r1 := init_settings Sample.env_overlap start in
  let r2 := init_settings Sample.env_overlap r1.1 in
  settings r2.1 = settings r1.1 ∧ r2.2 = r1.2.
Proof.
  apply (init_settings_idempotent Sample.env_overlap start). discriminate.
Defined.

Lemma names_are_not_validated_witness :
  (init_settings Sample.env_openai start).2
  = (init_settings Sample.env_renamed start).2
  ∧ chunk_size (settings (init_settings Sample.env_openai start).1)
    = chunk_size (settings (init_settings Sample.env_renamed start).1)
  ∧ chunk_overlap (settings (init_settings Sample.env_openai start).1)
    = chunk_overlap (settings (init_settings Sample.env_renamed start).1).
Proof.
  apply (names_are_not_validated Sample.env_openai Sample.env_renamed start
           openai); [auto|reflexivity|].
  intros k Hk. unfold Sample.env_renamed.
  rewrite lookup_insert_ne, lookup_delete_ne; [reflexivity| |];
    intros <-; apply Hk; rewrite !elem_of_cons; auto.
Defined.

